(** * Telemetry unification tool: a shallow embedding of [main.py]

    The program reads two JSON documents, maps the records of each to one
    unified schema, concatenates the two lists, writes the result and
    compares it with a fixture.  Python values are JSON values here, the
    interpreter state (files on disk, standard output) is threaded through
    a state-and-exception monad, and floating-point arithmetic is IEEE
    binary64 as specified by [SpecFloat]. *)

From Stdlib Require Import ZArith List String Ascii Bool Lia SpecFloat.
From stdpp Require Import base option gmap strings list.

Open Scope Z_scope.

(** ** Values *)

(** What [json.load] can return.  A [JDict] lists its members in insertion
    order and a lookup takes the first binding of a key.  A [str] is held
    as the bytes of its UTF-8 encoding; a surrogate code point, which
    [json.load] hands over when an escape such as [\ud800] stands alone,
    is held in the three-byte form that the same encoding gives it once
    surrogates are let through. *)
#[warnings="-register-all"]
Inductive json : Type :=
| JNull
| JBool (b : bool)
| JInt (n : Z)
| JFloat (x : spec_float)
| JStr (s : string)
| JList (items : list json)
| JDict (members : list (string * json)).

(** The exception classes the program can meet. *)
Inductive exn : Type :=
| KeyError (key : string)
| TypeError
| AttributeError
| ValueError
| UnicodeEncodeError
| OverflowError
| OSError.

(** [isinstance(e, ValueError)]: [UnicodeEncodeError] is a subclass. *)
Definition is_value_error (e : exn) : bool :=
  match e with
  | ValueError | UnicodeEncodeError => true
  | _ => false
  end.

Inductive outcome (A : Type) : Type :=
| Return (a : A)
| Raise (e : exn).
Arguments Return {A} a.
Arguments Raise {A} e.

(** A printed line is the sequence of the pieces of its f-string: literal
    text, and interpolated values kept as values. *)
Inductive piece : Type :=
| Lit (s : string)
| Fmt (v : json)
| FmtExn (e : exn).

Definition line : Type := list piece.

(** A file on disk either holds a JSON document or text that [json.load]
    rejects. *)
Inductive file : Type :=
| Garbled
| Document (v : json).

Record world : Type := World {
  files : gmap string file;
  locked : gset string;
  stdout : list line
}.

Definition empty_world : world := World ∅ ∅ [].

(** ** The interpreter monad *)

Definition py (A : Type) : Type := world -> outcome A * world.

#[global] Instance py_ret : MRet py := fun A a w => (Return a, w).

#[global] Instance py_bind : MBind py := fun A B k m w =>
  match m w with
  | (Return a, w') => k a w'
  | (Raise e, w') => (Raise e, w')
  end.

Definition raise {A : Type} (e : exn) : py A := fun w => (Raise e, w).

Definition lift {A : Type} (o : outcome A) : py A := fun w => (o, w).

(** *** Text and standard output

    Standard output is taken to encode as UTF-8 and to be strict about it,
    as the interpreter opens it under a UTF-8 locale: it refuses a
    surrogate code point, the only thing UTF-8 cannot encode.  (Under the
    C locale the interpreter lets the surrogates [U+DC80] to [U+DCFF]
    through and refuses the others, [U+D800] among them.) *)

(** The second byte of the three-byte form of a surrogate, after [0xED]. *)
Definition surrogate_trail (c : ascii) : bool :=
  (160 <=? Z.of_N (N_of_ascii c)) && (Z.of_N (N_of_ascii c) <=? 191).

Definition starts_surrogate_trail (s : string) : bool :=
  match s with
  | String d _ => surrogate_trail d
  | EmptyString => false
  end.

Fixpoint has_surrogate (s : string) : bool :=
  match s with
  | EmptyString => false
  | String c s' =>
      (Ascii.eqb c (ascii_of_nat 237) && starts_surrogate_trail s') || has_surrogate s'
  end.

(** [s.encode('utf-8')] succeeds. *)
Definition encodable (s : string) : bool := negb (has_surrogate s).

(** The text of a piece can be encoded.  The literal text of the program
    holds no surrogate; a [str] is interpolated as it is; any other value
    is interpolated through [repr], which writes a surrogate as an escape,
    and so is the message of an exception. *)
Definition printable_piece (p : piece) : bool :=
  match p with
  | Fmt (JStr s) => encodable s
  | _ => true
  end.

Definition printable (l : line) : bool := forallb printable_piece l.

(** [print(f"...")]: the line is encoded before anything is written, so a
    line that cannot be encoded raises and leaves standard output as it
    was. *)
Definition print (l : line) : py unit := fun w =>
  if printable l then (Return tt, World (files w) (locked w) (stdout w ++ [l]))
  else (Raise UnicodeEncodeError, w).

(** [try: body  except ValueError: handler], which also catches the
    subclasses of [ValueError]. *)
Definition try_except_ValueError {A : Type} (body handler : py A) : py A :=
  fun w =>
    match body w with
    | (Raise e, w') => if is_value_error e then handler w' else (Raise e, w')
    | r => r
    end.

(** [try: body  except Exception as e: handler e] *)
Definition try_except_Exception {A : Type} (body : py A) (handler : exn -> py A) : py A :=
  fun w =>
    match body w with
    | (Raise e, w') => handler e w'
    | r => r
    end.

(** [with open(filename, 'w') as f: json.dump(v, f, indent=2)]; opening a
    locked path fails. *)
Definition dump_to_file (filename : string) (v : json) : py unit := fun w =>
  if bool_decide (filename ∈ locked w) then (Raise OSError, w)
  else (Return tt, World (<[filename := Document v]> (files w)) (locked w) (stdout w)).

(** ** Python's built-in operations on JSON values *)

Fixpoint assoc (key : string) (d : list (string * json)) : option json :=
  match d with
  | [] => None
  | (k, v) :: d' => if String.eqb k key then Some v else assoc key d'
  end.

Definition float_is_zero (x : spec_float) : bool :=
  match x with S754_zero _ => true | _ => false end.

(** [bool(v)], the test behind [not v]. *)
Definition truthy (v : json) : bool :=
  match v with
  | JNull => false
  | JBool b => b
  | JInt n => negb (n =? 0)
  | JFloat x => negb (float_is_zero x)
  | JStr s => negb (String.eqb s "")
  | JList l => match l with [] => false | _ => true end
  | JDict d => match d with [] => false | _ => true end
  end.

Fixpoint is_substring (pat s : string) : bool :=
  String.prefix pat s ||
  match s with
  | EmptyString => false
  | String _ s' => is_substring pat s'
  end.

Definition is_str (key : string) (v : json) : bool :=
  match v with JStr s => String.eqb s key | _ => false end.

(** [key in container] for a string [key]. *)
Definition contains (container : json) (key : string) : py bool :=
  match container with
  | JDict d => mret (bool_decide (is_Some (assoc key d)))
  | JList l => mret (existsb (is_str key) l)
  | JStr s => mret (is_substring key s)
  | _ => raise TypeError
  end.

(** [container[key]] for a string [key]. *)
Definition getitem (container : json) (key : string) : py json :=
  match container with
  | JDict d =>
      match assoc key d with
      | Some v => mret v
      | None => raise (KeyError key)
      end
  | _ => raise TypeError
  end.

(** A byte of the form [10xxxxxx] continues a character. *)
Definition continuation (c : ascii) : bool :=
  (128 <=? Z.of_N (N_of_ascii c)) && (Z.of_N (N_of_ascii c) <? 192).

(** The characters of a string: each first byte with the continuation
    bytes that follow it. *)
Fixpoint code_points (s : string) : list string :=
  match s with
  | EmptyString => []
  | String c s' =>
      match code_points s' with
      | (String d _ as g) :: gs =>
          if continuation d then String c g :: gs
          else String c EmptyString :: g :: gs
      | gs => String c EmptyString :: gs
      end
  end.

Definition chars (s : string) : list json := map JStr (code_points s).

(** The items a [for] loop draws from a value. *)
Definition iter (v : json) : py (list json) :=
  match v with
  | JList l => mret l
  | JStr s => mret (chars s)
  | JDict d => mret (map (fun kv => JStr (fst kv)) d)
  | _ => raise TypeError
  end.

(** [len(v)] *)
Definition len (v : json) : py Z :=
  match v with
  | JList l => mret (Z.of_nat (length l))
  | JStr s => mret (Z.of_nat (length (code_points s)))
  | JDict d => mret (Z.of_nat (length d))
  | _ => raise TypeError
  end.

(** [s.replace(old, new)] for a one-character [old]. *)
Fixpoint replace (old : ascii) (new : string) (s : string) : string :=
  match s with
  | EmptyString => EmptyString
  | String c s' =>
      if Ascii.eqb c old then new +:+ replace old new s'
      else String c (replace old new s')
  end.

(** [v.replace(old, new)]: only [str] has the method. *)
Definition call_replace (v : json) (old : ascii) (new : string) : py string :=
  match v with
  | JStr s => mret (replace old new s)
  | _ => raise AttributeError
  end.

(** [v.get(key, default)]: only [dict] has the method. *)
Definition call_get (v : json) (key : string) (default : json) : py json :=
  match v with
  | JDict d => mret (from_option id default (assoc key d))
  | _ => raise AttributeError
  end.

Definition nl : string := String (ascii_of_nat 10) EmptyString.

(** [s * n] *)
Fixpoint times (s : string) (n : nat) : string :=
  match n with
  | O => EmptyString
  | S n' => s +:+ times s n'
  end.

(** ** Binary64 arithmetic *)

Module Float.

Definition prec : Z := 53.
Definition emax : Z := 1024.

(** [float(n)]: the nearest double, or [OverflowError]. *)
Definition of_int (n : Z) : outcome spec_float :=
  match binary_normalize prec emax n 0 false with
  | S754_infinity _ => Raise OverflowError
  | x => Return x
  end.

(** A literal whose value is an integer that a double holds exactly. *)
Definition lit (n : Z) : spec_float := binary_normalize prec emax n 0 false.

Definition add : spec_float -> spec_float -> spec_float := SFadd prec emax.
Definition mul : spec_float -> spec_float -> spec_float := SFmul prec emax.
Definition div : spec_float -> spec_float -> spec_float := SFdiv prec emax.

(** [a / b] on two [int]s with [0 < b]: the quotient rounded once, to the
    nearest double, ties to even. *)
Definition int_truediv (a b : Z) : outcome spec_float :=
  let '(q, e, l) := SFdiv_core_binary prec emax (Z.abs a) 0 b 0 in
  match binary_round_aux prec emax (a <? 0) q e l with
  | S754_infinity _ => Raise OverflowError
  | x => Return x
  end.

(** [int(x)]: truncation toward zero. *)
Definition to_int (x : spec_float) : outcome Z :=
  match x with
  | S754_zero _ => Return 0
  | S754_infinity _ => Raise OverflowError
  | S754_nan => Raise ValueError
  | S754_finite s m e =>
      let a := match e with
               | Zneg p => Z.shiftr (Zpos m) (Zpos p)
               | _ => Z.shiftl (Zpos m) e
               end in
      Return (if s then - a else a)
  end.

End Float.

(** ** The [datetime] library *)

Record datetime : Type := Datetime {
  year : Z; month : Z; day : Z;
  hour : Z; minute : Z; second : Z; microsecond : Z;
  (** offset east of UTC in microseconds; [None] for a naive value *)
  utcoffset : option Z
}.

Definition is_leap (y : Z) : bool :=
  (y mod 4 =? 0) && (negb (y mod 100 =? 0) || (y mod 400 =? 0)).

Definition days_before_year (y : Z) : Z :=
  let p := y - 1 in p * 365 + p / 4 - p / 100 + p / 400.

Definition days_in_month (y m : Z) : Z :=
  if m =? 2 then (if is_leap y then 29 else 28)
  else if (m =? 4) || (m =? 6) || (m =? 9) || (m =? 11) then 30
  else 31.

Definition days_before_month (y m : Z) : Z :=
  fold_right Z.add 0 (map (days_in_month y) (map Z.of_nat (seq 1 (Z.to_nat (m - 1))))).

(** Proleptic Gregorian ordinal; 0001-01-01 is day 1. *)
Definition ymd2ord (y m d : Z) : Z :=
  days_before_year y + days_before_month y m + d.

Definition epoch_ordinal : Z := Eval vm_compute in ymd2ord 1970 1 1.

(** Microseconds from 1970-01-01T00:00:00 to the fields of [dt], read as
    they stand. *)
Definition field_microseconds (dt : datetime) : Z :=
  ((ymd2ord (year dt) (month dt) (day dt) - epoch_ordinal) * 86400
   + hour dt * 3600 + minute dt * 60 + second dt) * 1000000
  + microsecond dt.

(** [(dt - _EPOCH)] in microseconds for an aware [dt] with offset [off]. *)
Definition epoch_microseconds (dt : datetime) (off : Z) : Z :=
  field_microseconds dt - off.

(** ** Equality of loaded values

    [==] as the item comparison of containers applies it: numbers compare by
    value across [bool], [int] and [float]; a dict compares by size and by
    the value under each key; [json] decodes every [NaN] to one shared
    object, which the identity shortcut of the item comparison equates. *)

Definition int_eq_float (n : Z) (x : spec_float) : bool :=
  match x with
  | S754_zero _ => n =? 0
  | S754_finite s m e =>
      let v := if s then Zneg m else Zpos m in
      match e with
      | Zneg p => Z.shiftl n (Zpos p) =? v
      | _ => n =? Z.shiftl v e
      end
  | _ => false
  end.

Definition float_eq (x y : spec_float) : bool :=
  match x, y with
  | S754_nan, S754_nan => true
  | _, _ => SFeqb x y
  end.

Definition as_number (v : json) : option (Z + spec_float) :=
  match v with
  | JBool b => Some (inl (if b then 1 else 0))
  | JInt n => Some (inl n)
  | JFloat x => Some (inr x)
  | _ => None
  end.

Definition number_eq (a b : Z + spec_float) : bool :=
  match a, b with
  | inl m, inl n => m =? n
  | inl m, inr y => int_eq_float m y
  | inr x, inl n => int_eq_float n x
  | inr x, inr y => float_eq x y
  end.

Fixpoint py_eq (a b : json) {struct a} : bool :=
  match a, b with
  | JNull, JNull => true
  | JStr s, JStr t => String.eqb s t
  | JList l, JList m =>
      (fix items (l m : list json) {struct l} : bool :=
         match l, m with
         | [], [] => true
         | x :: l', y :: m' => py_eq x y && items l' m'
         | _, _ => false
         end) l m
  | JDict d, JDict d2 =>
      (length d =? length d2)%nat &&
      (fix members (d : list (string * json)) {struct d} : bool :=
         match d with
         | [] => true
         | (k, v) :: d' =>
             match assoc k d2 with
             | Some v2 => py_eq v v2
             | None => false
             end && members d'
         end) d
  | _, _ =>
      match as_number a, as_number b with
      | Some x, Some y => number_eq x y
      | _, _ => false
      end
  end.

(** [a != b] *)
Definition py_ne (a b : json) : bool := negb (py_eq a b).

(** ** The program *)

Section Program.

(** Two services of the runtime are parameters: the parser behind
    [datetime.fromisoformat], whose accepted syntax differs between
    interpreter versions, and the host's conversion of a naive local time
    to seconds since the epoch. *)
Variable fromisoformat : string -> outcome datetime.
Variable mktime : datetime -> outcome Z.

(** [dt.timestamp()]: for an aware value, [(dt - _EPOCH).total_seconds()],
    the microseconds divided by [10**6] as integers; for a naive one, the
    host's seconds plus [dt.microsecond / 1e6]. *)
Definition timestamp (dt : datetime) : py spec_float :=
  match utcoffset dt with
  | None =>
      s ← lift (mktime dt);
      x ← lift (Float.of_int s);
      mret (Float.add x (Float.div (Float.lit (microsecond dt)) (Float.lit 1000000)))
  | Some off => lift (Float.int_truediv (epoch_microseconds dt off) 1000000)
  end.

(** [load_json_file], lines 5-15. *)
Definition load_json_file (filename : string) : py json := fun w =>
  match files w !! filename with
  | Some (Document v) => (Return v, w)
  | None =>
      (print [Lit "Error: File "; Fmt (JStr filename); Lit " not found."];;
       mret (JDict [])) w
  | Some Garbled =>
      (print [Lit "Error: Invalid JSON in file "; Fmt (JStr filename); Lit "."];;
       mret (JDict [])) w
  end.

(** [iso_to_milliseconds], lines 17-29; the argument is whatever the
    entry holds under ["timestamp"]. *)
Definition iso_to_milliseconds (iso_timestamp : json) : py Z :=
  try_except_ValueError
    (s ← call_replace iso_timestamp "Z" "+00:00";
     dt ← lift (fromisoformat s);
     t ← timestamp dt;
     lift (Float.to_int (Float.mul t (Float.lit 1000))))
    (print [Lit "Error: Invalid ISO timestamp format: "; Fmt iso_timestamp];;
     mret 0).

(** The [for] loop of [transform_format1_to_unified], lines 64-77, with
    the list under construction as accumulator. *)
Fixpoint format1_loop (entries unified_data : list json) : py (list json) :=
  match entries with
  | [] => mret unified_data
  | entry :: rest =>
      ts ← getitem entry "timestamp";
      timestamp_ms ← iso_to_milliseconds ts;
      device_id ← getitem entry "device_id";
      temperature ← getitem entry "temperature";
      humidity ← getitem entry "humidity";
      pressure ← getitem entry "pressure";
      let unified_entry :=
        JDict [("device_id", device_id);
               ("timestamp", JInt timestamp_ms);
               ("temperature", temperature);
               ("humidity", humidity);
               ("pressure", pressure)] in
      format1_loop rest (unified_data ++ [unified_entry])
  end.

(** [transform_format1_to_unified], lines 31-79. *)
Definition transform_format1_to_unified (data : json) : py (list json) :=
  present ← contains data "telemetry";
  if negb present then mret []
  else
    telemetry ← getitem data "telemetry";
    entries ← iter telemetry;
    format1_loop entries [].

(** The [for] loop of [transform_format2_to_unified], lines 114-124. *)
Fixpoint format2_loop (entries unified_data : list json) : py (list json) :=
  match entries with
  | [] => mret unified_data
  | entry :: rest =>
      device_id ← getitem entry "id";
      ts ← getitem entry "ts";
      temperature ← getitem entry "temp";
      humidity ← getitem entry "hum";
      pressure ← getitem entry "press";
      let unified_entry :=
        JDict [("device_id", device_id);
               ("timestamp", ts);
               ("temperature", temperature);
               ("humidity", humidity);
               ("pressure", pressure)] in
      format2_loop rest (unified_data ++ [unified_entry])
  end.

(** [transform_format2_to_unified], lines 81-126. *)
Definition transform_format2_to_unified (data : json) : py (list json) :=
  present ← contains data "sensors";
  if negb present then mret []
  else
    sensors ← getitem data "sensors";
    entries ← iter sensors;
    format2_loop entries [].

(** [save_unified_data], lines 128-137. *)
Definition save_unified_data (unified_data : list json) (filename : string) : py unit :=
  let output := JDict [("unified_telemetry", JList unified_data)] in
  try_except_Exception
    (dump_to_file filename output;;
     print [Lit "Unified data saved to "; Fmt (JStr filename)])
    (fun e => print [Lit "Error saving to "; Fmt (JStr filename); Lit ": "; FmtExn e]).

(** The comparison loop of [run_tests]; [false] is its early
    [return False], [true] means that it ran to its end. *)
Fixpoint compare_records (i : Z) (actuals expecteds : list json) : py bool :=
  match actuals, expecteds with
  | actual :: actuals', expected :: expecteds' =>
      if py_ne actual expected then
        print [Lit "❌ Test failed: Record "; Fmt (JInt (i + 1));
               Lit " doesn't match expected result"];;
        print [Lit "Expected: "; Fmt expected];;
        print [Lit "Actual: "; Fmt actual];;
        mret false
      else compare_records (i + 1) actuals' expecteds'
  | _, _ => mret true
  end.

(** [run_tests], lines 139-188. *)
Definition run_tests : py bool :=
  print [Lit "Running automated tests..."];;
  expected_data ← load_json_file "data-result.json";
  if negb (truthy expected_data) then
    print [Lit "❌ Test failed: Could not load expected result file"];;
    mret false
  else
  print [Lit nl; Lit "📊 Testing format 1 transformation (ISO timestamps)..."];;
  data1 ← load_json_file "data-1.json";
  if negb (truthy data1) then
    print [Lit "❌ Test failed: Could not load data-1.json"];;
    mret false
  else
  unified1 ← transform_format1_to_unified data1;
  print [Lit "✅ Transformed "; Fmt (JInt (Z.of_nat (length unified1)));
         Lit " records from format 1"];;
  print [Lit nl; Lit "📊 Testing format 2 transformation (millisecond timestamps)..."];;
  data2 ← load_json_file "data-2.json";
  if negb (truthy data2) then
    print [Lit "❌ Test failed: Could not load data-2.json"];;
    mret false
  else
  unified2 ← transform_format2_to_unified data2;
  print [Lit "✅ Transformed "; Fmt (JInt (Z.of_nat (length unified2)));
         Lit " records from format 2"];;
  let all_unified := unified1 ++ unified2 in
  expected_records ← call_get expected_data "unified_telemetry" (JList []);
  n ← len expected_records;
  if negb (Z.of_nat (length all_unified) =? n) then
    print [Lit "❌ Test failed: Expected "; Fmt (JInt n); Lit " records, got ";
           Fmt (JInt (Z.of_nat (length all_unified)))];;
    mret false
  else
  expecteds ← iter expected_records;
  finished ← compare_records 0 all_unified expecteds;
  if (finished : bool) then
    print [Lit "✅ All tests passed! Data transformation is working correctly."];;
    mret true
  else mret false.

(** [main], lines 190-227. *)
Definition main : py unit :=
  print [Lit "🚀 Python Data Transformation Tool"];;
  print [Lit (times "=" 50)];;
  print [Lit "📁 Loading telemetry data files..."];;
  data1 ← load_json_file "data-1.json";
  data2 ← load_json_file "data-2.json";
  if negb (truthy data1) || negb (truthy data2) then
    print [Lit "❌ Error: Could not load required data files"]
  else
  print [Lit "✅ Data files loaded successfully"];;
  print [Lit nl; Lit "🔄 Transforming data to unified format..."];;
  unified1 ← transform_format1_to_unified data1;
  unified2 ← transform_format2_to_unified data2;
  let all_unified_data := unified1 ++ unified2 in
  print [Lit "✅ Successfully transformed ";
         Fmt (JInt (Z.of_nat (length all_unified_data))); Lit " total records"];;
  print [Lit nl; Lit "💾 Saving unified data..."];;
  save_unified_data all_unified_data "output-unified.json";;
  print [Lit nl; Lit "🧪 Running automated tests..."];;
  test_passed ← run_tests;
  if (test_passed : bool) then
    print [Lit nl; Lit "🎉 Success! All transformations completed and tests passed."]
  else
    print [Lit nl; Lit "❌ Some tests failed. Please check the implementation."].

End Program.

(** ** A reference runtime

    Used to run the program on concrete inputs.  The parser covers the
    timestamps of the form [YYYY-MM-DD?HH:MM:SS[.fff[fff]][±HH:MM]], with
    any single character for [?]; those are read alike by every release of
    the library that has [fromisoformat].  Other strings are rejected here
    (later releases accept further ISO 8601 forms).  The host clock is set
    to UTC. *)

Module Reference.

Definition digit (c : ascii) : option Z :=
  let n := Z.of_nat (nat_of_ascii c) in
  if (48 <=? n) && (n <=? 57) then Some (n - 48) else None.

Fixpoint number (acc : Z) (cs : list ascii) : option Z :=
  match cs with
  | [] => Some acc
  | c :: cs' => d ← digit c; number (acc * 10 + d) cs'
  end.

Definition is_char (c : ascii) (x : ascii) : bool := Ascii.eqb x c.

Definition parse_date (cs : list ascii) : option (Z * Z * Z) :=
  match cs with
  | [y1; y2; y3; y4; s1; m1; m2; s2; d1; d2] =>
      if is_char "-" s1 && is_char "-" s2 then
        y ← number 0 [y1; y2; y3; y4];
        m ← number 0 [m1; m2];
        d ← number 0 [d1; d2];
        Some (y, m, d)
      else None
  | _ => None
  end.

Definition parse_fraction (cs : list ascii) : option Z :=
  match cs with
  | [] => Some 0
  | dot :: ds =>
      if is_char "." dot then
        match ds with
        | [_; _; _] => n ← number 0 ds; Some (n * 1000)
        | [_; _; _; _; _; _] => number 0 ds
        | _ => None
        end
      else None
  end.

Definition parse_hh_mm_ss_ff (cs : list ascii) : option (Z * Z * Z * Z) :=
  match cs with
  | h1 :: h2 :: c1 :: m1 :: m2 :: c2 :: s1 :: s2 :: frac =>
      if is_char ":" c1 && is_char ":" c2 then
        h ← number 0 [h1; h2];
        m ← number 0 [m1; m2];
        s ← number 0 [s1; s2];
        us ← parse_fraction frac;
        Some (h, m, s, us)
      else None
  | _ => None
  end.

Definition parse_offset (cs : list ascii) : option Z :=
  match cs with
  | [h1; h2; c; m1; m2] =>
      if is_char ":" c then
        h ← number 0 [h1; h2];
        m ← number 0 [m1; m2];
        Some ((h * 3600 + m * 60) * 1000000)
      else None
  | _ => None
  end.

(** Splits a time string at its first ["-"] or, when it has none, at its
    first ["+"]; the sign is [-1] or [1]. *)
Fixpoint split_at (c : ascii) (cs : list ascii) : option (list ascii * list ascii) :=
  match cs with
  | [] => None
  | x :: cs' =>
      if Ascii.eqb x c then Some ([], cs')
      else '(l, r) ← split_at c cs'; Some (x :: l, r)
  end.

Definition split_zone (cs : list ascii) : list ascii * option (Z * list ascii) :=
  match split_at "-" cs with
  | Some (l, r) => (l, Some (-1, r))
  | None =>
      match split_at "+" cs with
      | Some (l, r) => (l, Some (1, r))
      | None => (cs, None)
      end
  end.

Definition parse_time (cs : list ascii) : option (Z * Z * Z * Z * option Z) :=
  let '(timestr, zone) := split_zone cs in
  '(h, m, s, us) ← parse_hh_mm_ss_ff timestr;
  match zone with
  | None => Some (h, m, s, us, None)
  | Some (sign, tzstr) =>
      off ← parse_offset tzstr;
      Some (h, m, s, us, Some (sign * off))
  end.

(** The range checks of the [datetime] and [timezone] constructors. *)
Definition valid_fields (dt : datetime) : bool :=
  (1 <=? year dt) && (year dt <=? 9999) &&
  (1 <=? month dt) && (month dt <=? 12) &&
  (1 <=? day dt) && (day dt <=? days_in_month (year dt) (month dt)) &&
  (hour dt <=? 23) && (minute dt <=? 59) && (second dt <=? 59) &&
  match utcoffset dt with
  | Some off => Z.abs off <? 86400 * 1000000
  | None => true
  end.

Definition parse (s : string) : option datetime :=
  let cs := list_ascii_of_string s in
  '(y, mo, d) ← parse_date (take 10 cs);
  match drop 10 cs with
  | _ :: tstr =>
      '(h, mi, sec, us, off) ← parse_time tstr;
      let dt := Datetime y mo d h mi sec us off in
      if valid_fields dt then Some dt else None
  | [] => None
  end.

Definition fromisoformat (s : string) : outcome datetime :=
  match parse s with
  | Some dt => Return dt
  | None => Raise ValueError
  end.

Definition mktime (dt : datetime) : outcome Z :=
  Return (field_microseconds dt / 1000000).

Definition normalize (s : string) : py Z :=
  iso_to_milliseconds fromisoformat mktime (JStr s).

End Reference.

(** * Vocabulary of the statements

    What is needed to state what the program does: the effect of a
    computation on the world, the records the mappers build, the pieces of
    the console output of [main], and sample inputs. *)

(** ** Frames: what a computation may do to the world *)

(** [say out w] is [w] after the lines [out] were printed. *)
Definition say (out : list line) (w : world) : world :=
  World (files w) (locked w) (stdout w ++ out).

(** A steady computation prints and returns the same whatever the world. *)
Definition steady {A : Type} (m : py A) : Prop :=
  exists r out, forall w, m w = (r, say out w).

(** A read-only computation leaves the disk alone. *)
Definition readonly {A : Type} (m : py A) : Prop :=
  forall w, exists out, snd (m w) = say out w.

(** What a steady computation returns and prints. *)
Definition observe {A : Type} (m : py A) : outcome A * list line :=
  (fst (m empty_world), stdout (snd (m empty_world))).

(** ** Records *)

(** Field names in the order in which each loop body reads them. *)
Definition keys1 : list string :=
  ["timestamp"; "device_id"; "temperature"; "humidity"; "pressure"].
Definition keys2 : list string := ["id"; "ts"; "temp"; "hum"; "press"].

(** The first of [keys] that the object [m] lacks. *)
Fixpoint first_absent (keys : list string) (m : list (string * json)) : option string :=
  match keys with
  | [] => None
  | k :: keys' =>
      match assoc k m with
      | None => Some k
      | Some _ => first_absent keys' m
      end
  end.

(** The exception that reading [keys] off [entry], in order, runs into. *)
Definition missing (keys : list string) (entry : json) : option exn :=
  match keys, entry with
  | [], _ => None
  | _, JDict m => KeyError <$> first_absent keys m
  | _, _ => Some TypeError
  end.

Arguments missing : simpl never.

(** [entry] is an object that has every key of [keys]. *)
Definition complete (keys : list string) (entry : json) : bool :=
  match entry with
  | JDict m => forallb (fun k => bool_decide (is_Some (assoc k m))) keys
  | _ => false
  end.

(** [v] is a JSON object. *)
Definition is_object (v : json) : bool :=
  match v with JDict _ => true | _ => false end.

(** The value of [entry] under [key]; [null] stands for none. *)
Definition field (key : string) (entry : json) : json :=
  match entry with
  | JDict m => default JNull (assoc key m)
  | _ => JNull
  end.

(** The unified record, fields in insertion order. *)
Definition unified (device_id timestamp temperature humidity pressure : json) : json :=
  JDict [("device_id", device_id); ("timestamp", timestamp);
         ("temperature", temperature); ("humidity", humidity);
         ("pressure", pressure)].

(** The records of 4.2 and 4.3 of the specification. *)
Definition record_of_format1 (ms : Z) (entry : json) : json :=
  unified (field "device_id" entry) (JInt ms) (field "temperature" entry)
          (field "humidity" entry) (field "pressure" entry).

Definition record_of_format2 (entry : json) : json :=
  unified (field "id" entry) (field "ts" entry) (field "temp" entry)
          (field "hum" entry) (field "press" entry).

(** The types of the data model. *)
Definition is_string (v : json) : bool :=
  match v with JStr _ => true | _ => false end.
Definition is_integer (v : json) : bool :=
  match v with JInt _ => true | _ => false end.
Definition is_number (v : json) : bool :=
  match v with JInt _ | JFloat _ => true | _ => false end.

(** [r] has exactly the five unified fields, with the declared types. *)
Definition well_typed (r : json) : bool :=
  match r with
  | JDict [(k1, a); (k2, t); (k3, b); (k4, c); (k5, d)] =>
      String.eqb k1 "device_id" && String.eqb k2 "timestamp" &&
      String.eqb k3 "temperature" && String.eqb k4 "humidity" &&
      String.eqb k5 "pressure" &&
      is_string a && is_integer t && is_number b && is_number c && is_number d
  | _ => false
  end.

(** The input elements of a mapper: the elements of the list that the
    document holds under [key], none when it holds no list there. *)
Definition entries (key : string) (data : json) : list json :=
  match data with
  | JDict d =>
      match assoc key d with
      | Some (JList l) => l
      | _ => []
      end
  | _ => []
  end.

(** The first exception that reading [keys] off the entries of [l] runs
    into. *)
Fixpoint first_fault (keys : list string) (l : list json) : option exn :=
  match l with
  | [] => None
  | e :: l' =>
      match missing keys e with
      | Some x => Some x
      | None => first_fault keys l'
      end
  end.

(** ** The console output and the files of [main] *)

(** The document [load_json_file] returns for the state of a file, and the
    lines it prints. *)
Definition loaded (o : option file) : json :=
  match o with
  | Some (Document v) => v
  | _ => JDict []
  end.

Definition load_report (filename : string) (o : option file) : list line :=
  match o with
  | Some (Document _) => []
  | None => [[Lit "Error: File "; Fmt (JStr filename); Lit " not found."]]
  | Some Garbled => [[Lit "Error: Invalid JSON in file "; Fmt (JStr filename); Lit "."]]
  end.

(** The first lines of [main], the line of its early return, and the lines
    that follow the check of the two documents. *)
Definition banner : list line :=
  [[Lit "🚀 Python Data Transformation Tool"];
   [Lit (times "=" 50)];
   [Lit "📁 Loading telemetry data files..."]].

Definition abort_line : line := [Lit "❌ Error: Could not load required data files"].

Definition proceed_lines : list line :=
  [[Lit "✅ Data files loaded successfully"];
   [Lit nl; Lit "🔄 Transforming data to unified format..."]].

(** What [main] has printed once both documents are loaded. *)
Definition greeting (w : world) : list line :=
  banner ++ load_report "data-1.json" (files w !! "data-1.json")
         ++ load_report "data-2.json" (files w !! "data-2.json").

(** What [save_unified_data] writes. *)
Definition output_document (all_unified_data : list json) : file :=
  Document (JDict [("unified_telemetry", JList all_unified_data)]).

(** The diagnostic of the normalizer. *)
Definition invalid_timestamp_line (v : json) : line :=
  [Lit "Error: Invalid ISO timestamp format: "; Fmt v].

(** Where the [except] branch of the normalizer ends for the string [s]:
    with the diagnostic printed and 0 returned, or with the error of a
    diagnostic that standard output cannot encode. *)
Definition fallback (s : string) (w : world) : outcome Z * world :=
  if encodable s then (Return 0, say [invalid_timestamp_line (JStr s)] w)
  else (Raise UnicodeEncodeError, w).

(** The input types of the data model. *)
Definition typed1 (e : json) : bool :=
  is_string (field "device_id" e) && is_number (field "temperature" e) &&
  is_number (field "humidity" e) && is_number (field "pressure" e).

Definition typed2 (e : json) : bool :=
  is_string (field "id" e) && is_integer (field "ts" e) &&
  is_number (field "temp" e) && is_number (field "hum" e) &&
  is_number (field "press" e).

(** A file that cannot serve: missing, not JSON, or holding [{}]. *)
Definition empty_or_failed (o : option file) : Prop :=
  o = None \/ o = Some Garbled \/ o = Some (Document (JDict [])).

(** ** Observations of the program *)

Section Observations.

Context (fromisoformat : string -> outcome datetime).
Context (mktime : datetime -> outcome Z).

#[local] Abbreviation iso_to_milliseconds := (iso_to_milliseconds fromisoformat mktime).
#[local] Abbreviation run_tests := (run_tests fromisoformat mktime).
#[local] Abbreviation main := (main fromisoformat mktime).

(** The value the normalizer returns (or the exception it raises) on [v],
    and the lines it prints. *)
Definition milliseconds (v : json) : outcome Z :=
  fst (observe (iso_to_milliseconds v)).
Definition diagnostics (v : json) : list line :=
  snd (observe (iso_to_milliseconds v)).

(** The Format-A loop as a function of its input: what it returns or
    raises, and what it prints. *)
Fixpoint run1 (l : list json) : outcome (list json) * list line :=
  match l with
  | [] => (Return [], [])
  | e :: l' =>
      match missing ["timestamp"] e with
      | Some x => (Raise x, [])
      | None =>
          let out := diagnostics (field "timestamp" e) in
          match milliseconds (field "timestamp" e) with
          | Raise x => (Raise x, out)
          | Return ms =>
              match missing ["device_id"; "temperature"; "humidity"; "pressure"] e with
              | Some x => (Raise x, out)
              | None =>
                  match run1 l' with
                  | (Return rs, out') => (Return (record_of_format1 ms e :: rs), out ++ out')
                  | (Raise x, out') => (Raise x, out ++ out')
                  end
              end
          end
      end
  end.

(** [main] gives up: it returns having printed the error line, and leaves
    the disk as it found it. *)
Definition aborts (w : world) : Prop :=
  main w = (Return tt, say (greeting w ++ [abort_line]) w).

(** The part of [main] that follows the two mapper calls: saving, then
    the verdict of the tests. *)
Definition verdict : py unit :=
  print [Lit nl; Lit "🧪 Running automated tests..."];;
  test_passed ← run_tests;
  if (test_passed : bool) then
    print [Lit nl; Lit "🎉 Success! All transformations completed and tests passed."]
  else
    print [Lit nl; Lit "❌ Some tests failed. Please check the implementation."].

Definition epilogue (all_unified_data : list json) : py unit :=
  print [Lit "✅ Successfully transformed ";
         Fmt (JInt (Z.of_nat (length all_unified_data))); Lit " total records"];;
  print [Lit nl; Lit "💾 Saving unified data..."];;
  save_unified_data all_unified_data "output-unified.json";;
  verdict.

(** [r] is the unified record of the Format-A entry [e]. *)
Definition maps1 (e r : json) : Prop :=
  complete keys1 e = true /\
  exists ms, milliseconds (field "timestamp" e) = Return ms /\ r = record_of_format1 ms e.

(** The normalizer returns on the timestamp of [e], if [e] has one. *)
Definition timestamp_ok (e : json) : bool :=
  match missing ["timestamp"] e, milliseconds (field "timestamp" e) with
  | None, Raise _ => false
  | _, _ => true
  end.

(** [e] has the five fields and the normalizer returns on its timestamp. *)
Definition convertible1 (e : json) : bool :=
  complete keys1 e && timestamp_ok e.

(** The [try] body of the normalizer, once the suffix is rewritten. *)
Definition convert (s : string) : py Z :=
  dt ← lift (fromisoformat s);
  t ← timestamp mktime dt;
  lift (Float.to_int (Float.mul t (Float.lit 1000))).

End Observations.

Arguments milliseconds : simpl never.
Arguments diagnostics : simpl never.

(** The instant of a parsed timestamp in whole milliseconds since the
    epoch, truncated toward zero. *)
Definition elapsed_milliseconds (dt : datetime) : option Z :=
  off ← utcoffset dt; Some (Z.quot (epoch_microseconds dt off) 1000).

(** A file failed to load: it is missing or it is not JSON. *)
Definition load_failed (o : option file) : Prop := o = None \/ o = Some Garbled.

(** ** Values as [json.load] builds them *)

(** No object of [v] has two members under one key, at any depth. *)
Fixpoint distinct_keys (v : json) : bool :=
  match v with
  | JList l => forallb distinct_keys l
  | JDict d =>
      bool_decide (NoDup (map fst d)) &&
      forallb (fun kv => distinct_keys (snd kv)) d
  | _ => true
  end.

(** [e] is an object with the members of the object [a], in any order. *)
Definition same_members (a e : json) : Prop :=
  exists da de, a = JDict da /\ e = JDict de /\ Permutation da de.

(** A string or an object with nothing in it. *)
Definition is_empty_text_or_object (v : json) : bool :=
  match v with
  | JStr EmptyString | JDict [] => true
  | _ => false
  end.

Definition is_list (v : json) : bool :=
  match v with JList _ => true | _ => false end.

(** What a mapper does with a document that is not an object: a list or a
    string is searched for the key. *)
Definition non_object_result (key : string) (data : json) : outcome (list json) :=
  match data with
  | JList l => if existsb (is_str key) l then Raise TypeError else Return []
  | JStr s => if is_substring key s then Raise TypeError else Return []
  | _ => Raise TypeError
  end.

(** Lines of [save_unified_data] and of the end of [main]. *)
Definition saved_line (filename : string) : line :=
  [Lit "Unified data saved to "; Fmt (JStr filename)].

Definition save_failed_line (filename : string) : line :=
  [Lit "Error saving to "; Fmt (JStr filename); Lit ": "; FmtExn OSError].

Definition tests_banner : line := [Lit nl; Lit "🧪 Running automated tests..."].

Definition success_line : line :=
  [Lit nl; Lit "🎉 Success! All transformations completed and tests passed."].

(** The value [run_tests] compares the merged list with: the fixture's
    [unified_telemetry], or the empty list when the key is absent. *)
Definition expected_records (fixture : list (string * json)) : json :=
  from_option id (JList []) (assoc "unified_telemetry" fixture).

(** ** The comparison of [run_tests] *)

(** A member of one object has an equal value under its key in [d2]. *)
Definition member_matches (d2 : list (string * json)) (kv : string * json) : bool :=
  match assoc (fst kv) d2 with
  | Some v2 => py_eq (snd kv) v2
  | None => false
  end.

(** The end of [run_tests], lines 172-188: from the fixture and the merged
    list to the verdict. *)
Definition judge (expected_data : json) (all_unified : list json) : py bool :=
  expected_records ← call_get expected_data "unified_telemetry" (JList []);
  n ← len expected_records;
  if negb (Z.of_nat (length all_unified) =? n) then
    print [Lit "❌ Test failed: Expected "; Fmt (JInt n); Lit " records, got ";
           Fmt (JInt (Z.of_nat (length all_unified)))];;
    mret false
  else
  expecteds ← iter expected_records;
  finished ← compare_records 0 all_unified expecteds;
  if (finished : bool) then
    print [Lit "✅ All tests passed! Data transformation is working correctly."];;
    mret true
  else mret false.

(** The exception a fixture of the wrong shape makes [run_tests] raise:
    [get] exists on objects only, [len] on lists, strings and objects. *)
Definition fixture_fault (expected_data : json) : option exn :=
  match expected_data with
  | JDict fixture =>
      match expected_records fixture with
      | JList _ | JStr _ | JDict _ => None
      | _ => Some TypeError
      end
  | _ => Some AttributeError
  end.

Definition tests_passed_line : line :=
  [Lit "✅ All tests passed! Data transformation is working correctly."].

(** The three lines [run_tests] prints for record number [k], counted from
    one, when it differs from the fixture's. *)
Definition mismatch_lines (k : Z) (expected actual : json) : list line :=
  [[Lit "❌ Test failed: Record "; Fmt (JInt k); Lit " doesn't match expected result"];
   [Lit "Expected: "; Fmt expected];
   [Lit "Actual: "; Fmt actual]].

(** ** Sample inputs *)

Module Sample.

(** [a / b] as a float literal. *)
Definition ratio (a b : Z) : json := JFloat (Float.div (Float.lit a) (Float.lit b)).

Definition entry1 : json :=
  JDict [("device_id", JStr "sensor_001");
         ("timestamp", JStr "2023-10-15T14:30:25.123Z");
         ("temperature", ratio 235 10);
         ("humidity", ratio 652 10);
         ("pressure", ratio 101325 100)].

Definition entry2 : json :=
  JDict [("id", JStr "sensor_002");
         ("ts", JInt 1697372225123);
         ("temp", ratio 20 1);
         ("hum", ratio 50 1);
         ("press", ratio 1000 1)].

Definition members1 : list (string * json) := [("telemetry", JList [entry1])].
Definition members2 : list (string * json) := [("sensors", JList [entry2])].

Definition disk : gmap string file :=
  <["data-1.json" := Document (JDict members1)]>
    (<["data-2.json" := Document (JDict members2)]> ∅).

Definition start : world := World disk ∅ [].

(** The same disk with [{}] in the first input file. *)
Definition start_empty1 : world :=
  World (<["data-1.json" := Document (JDict [])]> disk) ∅ [].

(** A Format-A entry that has every field, with a number for timestamp. *)
Definition numeric_timestamp : json :=
  JDict [("device_id", JStr "sensor_001");
         ("timestamp", JInt 17);
         ("temperature", ratio 235 10);
         ("humidity", ratio 652 10);
         ("pressure", ratio 101325 100)].

(** A Format-A entry that has a timestamp and nothing else. *)
Definition only_timestamp : json := JDict [("timestamp", JInt 17)].

(** The string of the JSON text ["\ud800"]: one surrogate code point,
    standing alone. *)
Definition lone_surrogate : string :=
  String (ascii_of_nat 237) (String (ascii_of_nat 160) (String (ascii_of_nat 128) EmptyString)).

(** A Format-A entry that has every field, with that string for
    timestamp. *)
Definition surrogate_timestamp : json :=
  JDict [("device_id", JStr "sensor_001");
         ("timestamp", JStr lone_surrogate);
         ("temperature", ratio 235 10);
         ("humidity", ratio 652 10);
         ("pressure", ratio 101325 100)].

(** A Format-B entry that has every field, none of the declared type. *)
Definition ill_typed2 : json :=
  JDict [("id", JInt 7); ("ts", JStr "yesterday"); ("temp", JNull);
         ("hum", JBool true); ("press", JList [])].

End Sample.

(** ** Sample fixtures *)

Module Fixture.

(** A Format-A entry with a timestamp that is no timestamp. *)
Definition undated : json :=
  JDict [("device_id", JStr "sensor_005");
         ("timestamp", JStr "next Tuesday");
         ("temperature", Sample.ratio 215 10);
         ("humidity", Sample.ratio 40 1);
         ("pressure", Sample.ratio 1009 1)].

(** A Format-B entry that has an [id] and nothing else. *)
Definition only_id : json := JDict [("id", JStr "sensor_004")].

Definition record1 : json := record_of_format1 1697380225123 Sample.entry1.
Definition record2 : json := record_of_format2 Sample.entry2.

(** [record2] with its first two members exchanged. *)
Definition record2_reordered : json :=
  JDict [("timestamp", JInt 1697372225123);
         ("device_id", JStr "sensor_002");
         ("temperature", Sample.ratio 20 1);
         ("humidity", Sample.ratio 50 1);
         ("pressure", Sample.ratio 1000 1)].

Definition expected : list json := [record1; record2_reordered].

Definition members : list (string * json) := [("unified_telemetry", JList expected)].

(** The sample disk with a fixture that matches, with a fixture that is a
    list, and with an output path that cannot be opened. *)
Definition start : world :=
  World (<["data-result.json" := Document (JDict members)]> Sample.disk) ∅ [].

Definition start_list_fixture : world :=
  World (<["data-result.json" := Document (JList expected)]> Sample.disk) ∅ [].

Definition start_locked : world :=
  World Sample.disk {["output-unified.json"]} [].

(** [record2] as a fixture with another humidity would list it, and the
    sample disk with that fixture. *)
Definition record2_other : json :=
  JDict [("device_id", JStr "sensor_002");
         ("timestamp", JInt 1697372225123);
         ("temperature", Sample.ratio 20 1);
         ("humidity", Sample.ratio 51 1);
         ("pressure", Sample.ratio 1000 1)].

Definition members_other : list (string * json) :=
  [("unified_telemetry", JList [record1; record2_other])].

Definition start_other : world :=
  World (<["data-result.json" := Document (JDict members_other)]> Sample.disk) ∅ [].

(** [start] with an output file left over that is not JSON. *)
Definition start_stale : world :=
  World (<["output-unified.json" := Garbled]> (files start)) ∅ [].

End Fixture.

(** * Runs of the program *)

Lemma bind_run {A B : Type} (m : py A) (k : A -> py B) w :
  (m ≫= k) w =
  match m w with
  | (Return a, w') => k a w'
  | (Raise e, w') => (Raise e, w')
  end.
Proof. reflexivity. Qed.

Lemma ret_bind {A B : Type} (a : A) (k : A -> py B) w : (mret a ≫= k) w = k a w.
Proof. reflexivity. Qed.

Lemma say_nil w : say [] w = w.
Proof. destruct w; unfold say; simpl. by rewrite app_nil_r. Qed.

Lemma say_say out1 out2 w : say out2 (say out1 w) = say (out1 ++ out2) w.
Proof. unfold say; simpl. by rewrite app_assoc. Qed.

Lemma print_run l w : printable l = true -> print l w = (Return tt, say [l] w).
Proof. intros H. unfold print. by rewrite H. Qed.

Lemma print_fails l w :
  printable l = false -> print l w = (Raise UnicodeEncodeError, w).
Proof. intros H. unfold print. by rewrite H. Qed.

Lemma say_inj out1 out2 w : say out1 w = say out2 w -> out1 = out2.
Proof. unfold say. intros H. injection H as H. by apply app_inv_head in H. Qed.

Lemma steady_observe {A : Type} (m : py A) :
  steady m -> forall w, m w = (fst (observe m), say (snd (observe m)) w).
Proof.
  intros (r & out & H) w. unfold observe. by rewrite !H.
Qed.

Lemma steady_readonly {A : Type} (m : py A) : steady m -> readonly m.
Proof. intros (r & out & H) w. exists out. by rewrite H. Qed.

Create HintDb py discriminated.

Lemma steady_ret {A : Type} (a : A) : steady (mret a).
Proof. exists (Return a), []. intros w. by rewrite say_nil. Qed.

Lemma steady_raise {A : Type} (e : exn) : steady (@raise A e).
Proof. exists (Raise e), []. intros w. by rewrite say_nil. Qed.

Lemma steady_lift {A : Type} (o : outcome A) : steady (lift o).
Proof. exists o, []. intros w. by rewrite say_nil. Qed.

Lemma steady_print l : steady (print l).
Proof.
  destruct (printable l) eqn:E.
  - exists (Return tt), [l]. intros w. by apply print_run.
  - exists (Raise UnicodeEncodeError), []. intros w. by rewrite print_fails, say_nil.
Qed.

Lemma steady_bind {A B : Type} (m : py A) (k : A -> py B) :
  steady m -> (forall a, steady (k a)) -> steady (m ≫= k).
Proof.
  intros (r & out & Hm) Hk. destruct r as [a|e].
  - destruct (Hk a) as (r' & out' & Hka). exists r', (out ++ out').
    intros w. unfold mbind, py_bind. by rewrite Hm, Hka, say_say.
  - exists (Raise e), out. intros w. unfold mbind, py_bind. by rewrite Hm.
Qed.

Lemma steady_if {A : Type} (b : bool) (m1 m2 : py A) :
  steady m1 -> steady m2 -> steady (if b then m1 else m2).
Proof. by destruct b. Qed.

Lemma steady_try_except_ValueError {A : Type} (body handler : py A) :
  steady body -> steady handler -> steady (try_except_ValueError body handler).
Proof.
  intros (r & out & Hb) (r' & out' & Hh).
  destruct r as [a|e]; [|destruct (is_value_error e) eqn:E].
  - exists (Return a), out. intros w. unfold try_except_ValueError. by rewrite Hb.
  - exists r', (out ++ out'). intros w. unfold try_except_ValueError.
    by rewrite Hb, E, Hh, say_say.
  - exists (Raise e), out. intros w. unfold try_except_ValueError. by rewrite Hb, E.
Qed.

Lemma steady_contains v key : steady (contains v key).
Proof. destruct v; apply steady_ret || apply steady_raise. Qed.

Lemma steady_getitem v key : steady (getitem v key).
Proof.
  destruct v; simpl; try apply steady_raise.
  destruct (assoc key members); apply steady_ret || apply steady_raise.
Qed.

Lemma steady_iter v : steady (iter v).
Proof. destruct v; apply steady_ret || apply steady_raise. Qed.

Lemma steady_len v : steady (len v).
Proof. destruct v; apply steady_ret || apply steady_raise. Qed.

Lemma steady_call_replace v old new : steady (call_replace v old new).
Proof. destruct v; apply steady_ret || apply steady_raise. Qed.

Lemma steady_call_get v key default : steady (call_get v key default).
Proof. destruct v; apply steady_ret || apply steady_raise. Qed.

#[export] Hint Resolve steady_ret steady_raise steady_lift steady_print
  steady_bind steady_if steady_try_except_ValueError steady_contains
  steady_getitem steady_iter steady_len steady_call_replace
  steady_call_get : py.

Lemma readonly_bind {A B : Type} (m : py A) (k : A -> py B) :
  readonly m -> (forall a, readonly (k a)) -> readonly (m ≫= k).
Proof.
  intros Hm Hk w. destruct (Hm w) as [out H]. unfold mbind, py_bind.
  destruct (m w) as [[a|e] w']; simpl in H; subst w'.
  - destruct (Hk a (say out w)) as [out' H']. exists (out ++ out').
    by rewrite H', say_say.
  - by exists out.
Qed.

Lemma readonly_if {A : Type} (b : bool) (m1 m2 : py A) :
  readonly m1 -> readonly m2 -> readonly (if b then m1 else m2).
Proof. by destruct b. Qed.

#[export] Hint Resolve steady_readonly readonly_bind readonly_if : py.

Lemma first_absent_None keys m :
  first_absent keys m = None <->
  forallb (fun k => bool_decide (is_Some (assoc k m))) keys = true.
Proof.
  induction keys as [|k keys IH]; simpl; [done|].
  case_bool_decide as H; destruct (assoc k m) as [v|]; simpl.
  - done.
  - by destruct H.
  - destruct H; eauto.
  - done.
Qed.

Lemma first_absent_Some keys m k :
  first_absent keys m = Some k -> k ∈ keys /\ assoc k m = None.
Proof.
  induction keys as [|k' keys IH]; simpl; [done|].
  destruct (assoc k' m) as [v|] eqn:E.
  - intros H. destruct (IH H). split; [by apply list_elem_of_further|done].
  - intros [= <-]. split; [apply list_elem_of_here|done].
Qed.

Lemma missing_cons k keys m :
  missing (k :: keys) (JDict m) = KeyError <$> first_absent (k :: keys) m.
Proof. reflexivity. Qed.

Lemma complete_missing keys e : complete keys e = true -> missing keys e = None.
Proof.
  destruct e; try discriminate. simpl. intros H%first_absent_None.
  destruct keys; [done|]. by rewrite missing_cons, H.
Qed.

Lemma missing_complete keys e :
  keys <> [] -> missing keys e = None -> complete keys e = true.
Proof.
  intros Hk. destruct e; destruct keys as [|k0 keys]; try done.
  rewrite missing_cons. intros H. apply first_absent_None.
  by destruct (first_absent (k0 :: keys) members).
Qed.

Lemma missing_object keys m x :
  missing keys (JDict m) = Some x ->
  exists k, k ∈ keys /\ assoc k m = None /\ x = KeyError k.
Proof.
  destruct keys as [|k0 keys]; [done|]. rewrite missing_cons.
  destruct (first_absent (k0 :: keys) m) as [k|] eqn:E; [|done].
  intros [= <-]. exists k. destruct (first_absent_Some _ _ _ E). done.
Qed.

(** ** The mappers and the normalizer *)

Lemma append_cons x (a b : string) : String x a +:+ b = String x (a +:+ b).
Proof. reflexivity. Qed.

Lemma append_assoc (a b c : string) : (a +:+ b) +:+ c = a +:+ (b +:+ c).
Proof. induction a as [|x a IH]; [done|]. by rewrite !append_cons, IH. Qed.

Lemma replace_app old new s t :
  replace old new (s +:+ t) = replace old new s +:+ replace old new t.
Proof.
  induction s as [|c s IH]; [done|]. rewrite append_cons. simpl.
  destruct (Ascii.eqb c old); rewrite IH.
  - by rewrite append_assoc.
  - by rewrite append_cons.
Qed.

Lemma replace_idempotent s :
  replace "Z" "+00:00" (replace "Z" "+00:00" s) = replace "Z" "+00:00" s.
Proof.
  induction s as [|c s IH]; [done|]. simpl.
  destruct (Ascii.eqb c "Z") eqn:E.
  - rewrite replace_app, IH. reflexivity.
  - simpl. by rewrite E, IH.
Qed.

Lemma replace_absent s :
  is_substring "Z" s = false -> replace "Z" "+00:00" s = s.
Proof.
  induction s as [|c s IH]; [done|]. simpl.
  destruct (Ascii.eqb c "Z") eqn:E.
  - apply Ascii.eqb_eq in E. subst c. by destruct s.
  - intros H. rewrite IH; [done|].
    apply orb_false_iff in H. by destruct H.
Qed.

(** A string that is not empty has a first character. *)
Lemma code_points_cons c s : exists g gs, code_points (String c s) = g :: gs.
Proof.
  simpl. destruct (code_points s) as [|[|d g] gs]; [by eexists _, _..|].
  destruct (continuation d); by eexists _, _.
Qed.

(** Rewriting [Z] neither brings in nor takes away a surrogate. *)
Lemma has_surrogate_cons c t :
  Ascii.eqb c (ascii_of_nat 237) = false -> has_surrogate (String c t) = has_surrogate t.
Proof. intros H. simpl. by rewrite H. Qed.

Lemma starts_surrogate_trail_replace s :
  starts_surrogate_trail (replace "Z" "+00:00" s) = starts_surrogate_trail s.
Proof.
  destruct s as [|c s]; [done|]. simpl.
  destruct (Ascii.eqb c "Z") eqn:E; [|done].
  apply Ascii.eqb_eq in E. by subst c.
Qed.

Lemma encodable_replace s : encodable (replace "Z" "+00:00" s) = encodable s.
Proof.
  unfold encodable. f_equal. induction s as [|c s IH]; [done|]. simpl replace.
  destruct (Ascii.eqb c "Z") eqn:E.
  - apply Ascii.eqb_eq in E. subst c. rewrite !append_cons.
    rewrite !has_surrogate_cons by reflexivity. exact IH.
  - simpl. by rewrite IH, starts_surrogate_trail_replace.
Qed.

Section Runs.

Context (fromisoformat : string -> outcome datetime).
Context (mktime : datetime -> outcome Z).

#[local] Abbreviation iso_to_milliseconds := (iso_to_milliseconds fromisoformat mktime).
#[local] Abbreviation format1_loop := (format1_loop fromisoformat mktime).
#[local] Abbreviation transform_format1_to_unified :=
  (transform_format1_to_unified fromisoformat mktime).
#[local] Abbreviation run_tests := (run_tests fromisoformat mktime).
#[local] Abbreviation main := (main fromisoformat mktime).
#[local] Abbreviation milliseconds := (milliseconds fromisoformat mktime).
#[local] Abbreviation diagnostics := (diagnostics fromisoformat mktime).
#[local] Abbreviation run1 := (run1 fromisoformat mktime).
#[local] Abbreviation aborts := (aborts fromisoformat mktime).
#[local] Abbreviation verdict := (verdict fromisoformat mktime).
#[local] Abbreviation epilogue := (epilogue fromisoformat mktime).
#[local] Abbreviation maps1 := (maps1 fromisoformat mktime).
#[local] Abbreviation timestamp_ok := (timestamp_ok fromisoformat mktime).
#[local] Abbreviation convertible1 := (convertible1 fromisoformat mktime).
#[local] Abbreviation convert := (convert fromisoformat mktime).

Lemma steady_timestamp dt : steady (timestamp mktime dt).
Proof. unfold timestamp. destruct (utcoffset dt); eauto 10 with py. Qed.

Lemma steady_iso_to_milliseconds v : steady (iso_to_milliseconds v).
Proof.
  unfold iso_to_milliseconds.
  pose proof steady_timestamp. eauto 10 with py.
Qed.

Lemma iso_to_milliseconds_run v w :
  iso_to_milliseconds v w = (milliseconds v, say (diagnostics v) w).
Proof. apply steady_observe, steady_iso_to_milliseconds. Qed.

(** One turn of each loop. *)
Lemma format2_loop_cons e rest acc w :
  format2_loop (e :: rest) acc w =
  match missing keys2 e with
  | Some x => (Raise x, w)
  | None => format2_loop rest (acc ++ [record_of_format2 e]) w
  end.
Proof.
  destruct e as [| | | | |l|m]; try reflexivity.
  unfold keys2. rewrite missing_cons. unfold record_of_format2, field. simpl.
  unfold mbind, py_bind, getitem. simpl.
  repeat (match goal with
          | |- context [assoc ?k m] => destruct (assoc k m); simpl; try reflexivity
          end).
Qed.

Lemma format1_loop_cons e rest acc w :
  format1_loop (e :: rest) acc w =
  match missing ["timestamp"] e with
  | Some x => (Raise x, w)
  | None =>
      match milliseconds (field "timestamp" e) with
      | Raise x => (Raise x, say (diagnostics (field "timestamp" e)) w)
      | Return ms =>
          match missing ["device_id"; "temperature"; "humidity"; "pressure"] e with
          | Some x => (Raise x, say (diagnostics (field "timestamp" e)) w)
          | None =>
              format1_loop rest (acc ++ [record_of_format1 ms e])
                (say (diagnostics (field "timestamp" e)) w)
          end
      end
  end.
Proof.
  destruct e as [| | | | |l|m]; try reflexivity.
  rewrite !missing_cons. unfold record_of_format1, field. simpl.
  unfold mbind, py_bind, getitem. simpl.
  destruct (assoc "timestamp" m) as [ts|]; simpl; [|reflexivity].
  rewrite iso_to_milliseconds_run.
  destruct (milliseconds ts) as [ms|x]; [|reflexivity].
  repeat (match goal with
          | |- context [assoc ?k m] => destruct (assoc k m); simpl; try reflexivity
          end).
Qed.

Lemma format2_loop_run l acc w :
  format2_loop l acc w =
  (match first_fault keys2 l with
   | Some x => Raise x
   | None => Return (acc ++ map record_of_format2 l)
   end, w).
Proof.
  revert acc. induction l as [|e l IH]; intros acc.
  - simpl. by rewrite app_nil_r.
  - rewrite format2_loop_cons. simpl first_fault.
    destruct (missing keys2 e); [done|].
    rewrite IH. by rewrite <- app_assoc.
Qed.

Lemma format1_loop_run l acc w :
  format1_loop l acc w =
  (match fst (run1 l) with
   | Return rs => Return (acc ++ rs)
   | Raise x => Raise x
   end, say (snd (run1 l)) w).
Proof.
  revert acc w. induction l as [|e l IH]; intros acc w.
  - simpl. by rewrite app_nil_r, say_nil.
  - rewrite format1_loop_cons. simpl run1.
    destruct (missing ["timestamp"] e); [by rewrite say_nil|].
    destruct (milliseconds (field "timestamp" e)) as [ms|x]; [|done].
    destruct (missing ("device_id" :: _) e); [done|].
    rewrite IH. destruct (run1 l) as [[rs|x] out']; simpl;
      rewrite say_say; [by rewrite <- app_assoc|done].
Qed.

Lemma steady_format1_loop l acc : steady (format1_loop l acc).
Proof. eexists _, _. intros w. apply format1_loop_run. Qed.

Lemma steady_format2_loop l acc : steady (format2_loop l acc).
Proof. eexists _, []. intros w. rewrite say_nil. apply format2_loop_run. Qed.

Lemma steady_transform_format1_to_unified data :
  steady (transform_format1_to_unified data).
Proof.
  unfold transform_format1_to_unified.
  pose proof steady_format1_loop. eauto 10 with py.
Qed.

Lemma steady_transform_format2_to_unified data :
  steady (transform_format2_to_unified data).
Proof.
  unfold transform_format2_to_unified.
  pose proof steady_format2_loop. eauto 10 with py.
Qed.

(** The Format-B mapper prints nothing. *)
Lemma transform_format2_to_unified_silent data w :
  transform_format2_to_unified data w =
  (fst (transform_format2_to_unified data empty_world), w).
Proof.
  unfold transform_format2_to_unified, mbind, py_bind.
  destruct data as [| | | |s|l|d]; try reflexivity; simpl.
  - by destruct (is_substring "sensors" s).
  - by destruct (existsb (is_str "sensors") l).
  - unfold getitem. destruct (assoc "sensors" d) as [v|]; [|reflexivity].
    rewrite bool_decide_eq_true_2 by eauto. simpl.
    destruct v; try reflexivity; simpl; by rewrite !format2_loop_run.
Qed.

Lemma transform_format2_to_unified_list d l w :
  assoc "sensors" d = Some (JList l) ->
  transform_format2_to_unified (JDict d) w =
  (match first_fault keys2 l with
   | Some x => Raise x
   | None => Return (map record_of_format2 l)
   end, w).
Proof.
  intros H. unfold transform_format2_to_unified, mbind, py_bind. simpl.
  unfold getitem. rewrite H. rewrite bool_decide_eq_true_2 by eauto. simpl.
  by rewrite format2_loop_run.
Qed.

Lemma transform_format1_to_unified_list d l w :
  assoc "telemetry" d = Some (JList l) ->
  transform_format1_to_unified (JDict d) w = (fst (run1 l), say (snd (run1 l)) w).
Proof.
  intros H. unfold transform_format1_to_unified, mbind, py_bind. simpl.
  unfold getitem. rewrite H. rewrite bool_decide_eq_true_2 by eauto. simpl.
  rewrite format1_loop_run. by destruct (fst (run1 l)).
Qed.

(** ** The entry point *)

Lemma load_json_file_run filename w :
  encodable filename = true ->
  load_json_file filename w =
  (Return (loaded (files w !! filename)),
   say (load_report filename (files w !! filename)) w).
Proof.
  intros H. unfold load_json_file.
  destruct (files w !! filename) as [[|v]|]; simpl.
  - rewrite bind_run, print_run; [done|]. simpl. by rewrite H.
  - by rewrite say_nil.
  - rewrite bind_run, print_run; [done|]. simpl. by rewrite H.
Qed.

Lemma readonly_load_json_file filename : readonly (load_json_file filename).
Proof.
  intros w. unfold load_json_file.
  destruct (files w !! filename) as [[|v]|].
  - apply steady_readonly. eauto with py.
  - exists []. by rewrite say_nil.
  - apply steady_readonly. eauto with py.
Qed.

Lemma steady_compare_records i actuals expecteds :
  steady (compare_records i actuals expecteds).
Proof.
  revert i expecteds. induction actuals as [|a actuals IH]; intros i [|e expecteds];
    simpl; eauto 10 with py.
Qed.

Lemma readonly_run_tests : readonly run_tests.
Proof.
  pose proof readonly_load_json_file.
  pose proof steady_transform_format1_to_unified.
  pose proof steady_transform_format2_to_unified.
  pose proof steady_compare_records.
  unfold run_tests.
  repeat first
    [ solve [eauto 10 with py]
    | apply readonly_if
    | apply readonly_bind; [|intros ?] ].
Qed.

Lemma readonly_verdict : readonly verdict.
Proof.
  pose proof readonly_run_tests. unfold verdict.
  repeat first [ solve [eauto 10 with py] | apply readonly_if
               | apply readonly_bind; [|intros ?] ].
Qed.

Lemma main_run w :
  main w =
  let data1 := loaded (files w !! "data-1.json") in
  let data2 := loaded (files w !! "data-2.json") in
  if negb (truthy data1) || negb (truthy data2)
  then (Return tt, say (greeting w ++ [abort_line]) w)
  else
    match transform_format1_to_unified data1 (say (greeting w ++ proceed_lines) w) with
    | (Raise x, w') => (Raise x, w')
    | (Return unified1, w') =>
        match transform_format2_to_unified data2 w' with
        | (Raise x, w'') => (Raise x, w'')
        | (Return unified2, w'') => epilogue (unified1 ++ unified2) w''
        end
    end.
Proof.
  unfold main.
  do 3 (rewrite bind_run, print_run by reflexivity; cbv beta iota).
  do 2 (rewrite bind_run, load_json_file_run by reflexivity; cbv beta iota).
  rewrite !say_say.
  match goal with
  | |- context [say ?out w] =>
      replace out with (greeting w)
        by (unfold greeting, banner; rewrite <- !app_assoc; reflexivity)
  end.
  cbv zeta. destruct (negb _ || negb _).
  - rewrite print_run by reflexivity. by rewrite say_say.
  - do 2 (rewrite bind_run, print_run by reflexivity; cbv beta iota).
    rewrite !say_say, <- app_assoc. reflexivity.
Qed.

Lemma save_unified_data_run u filename w :
  encodable filename = true ->
  save_unified_data u filename w =
  if bool_decide (filename ∈ locked w)
  then (Return tt, say [[Lit "Error saving to "; Fmt (JStr filename); Lit ": ";
                         FmtExn OSError]] w)
  else (Return tt, say [[Lit "Unified data saved to "; Fmt (JStr filename)]]
                     (World (<[filename := output_document u]> (files w))
                            (locked w) (stdout w))).
Proof.
  intros H. unfold save_unified_data, try_except_Exception, dump_to_file.
  rewrite bind_run. case_bool_decide.
  - rewrite print_run; [done|]. simpl. by rewrite H.
  - rewrite print_run; [done|]. simpl. by rewrite H.
Qed.

(** With a path that standard output cannot encode, both the line of
    success and the line of the handler fail. *)
Lemma save_unified_data_fails u filename w :
  encodable filename = false ->
  save_unified_data u filename w =
  (Raise UnicodeEncodeError,
   if bool_decide (filename ∈ locked w) then w
   else World (<[filename := output_document u]> (files w)) (locked w) (stdout w)).
Proof.
  intros H. unfold save_unified_data, try_except_Exception, dump_to_file.
  rewrite bind_run. case_bool_decide.
  - rewrite print_fails; [done|]. simpl. by rewrite H.
  - rewrite !print_fails; [done| |]; simpl; by rewrite H.
Qed.

Lemma epilogue_files u w :
  files (snd (epilogue u w)) =
  if bool_decide ("output-unified.json" ∈ locked w) then files w
  else <["output-unified.json" := output_document u]> (files w).
Proof.
  unfold epilogue.
  do 2 (rewrite bind_run, print_run by reflexivity; cbv beta iota).
  rewrite bind_run, save_unified_data_run by reflexivity. simpl locked.
  case_bool_decide; cbv beta iota;
    match goal with
    | |- context [verdict ?w'] => destruct (readonly_verdict w') as [out ->]
    end; done.
Qed.

(** ** What the loops return *)

Lemma complete_cons k keys e :
  complete (k :: keys) e = true <-> complete [k] e = true /\ complete keys e = true.
Proof.
  destruct e; simpl; try (split; [discriminate|intros [? ?]; discriminate]).
  rewrite andb_true_r, andb_true_iff. done.
Qed.

Lemma first_fault_None keys l :
  keys <> [] -> first_fault keys l = None <-> forallb (complete keys) l = true.
Proof.
  intros Hk. induction l as [|e l IH]; simpl; [done|].
  destruct (missing keys e) as [x|] eqn:E.
  - split; [done|]. intros [H _]%andb_true_iff.
    apply complete_missing in H. congruence.
  - rewrite (missing_complete _ _ Hk E). simpl. done.
Qed.

Lemma first_fault_objects keys l x :
  forallb is_object l = true -> first_fault keys l = Some x ->
  exists k, k ∈ keys /\ x = KeyError k.
Proof.
  induction l as [|e l IH]; simpl; [done|].
  intros [He Hl]%andb_true_iff. destruct e; try done.
  destruct (missing keys (JDict members)) as [y|] eqn:E; [|by apply IH].
  intros [= ->]. destruct (missing_object _ _ _ E) as (k & Hk & _ & ->). by exists k.
Qed.

Lemma run1_returns l rs : fst (run1 l) = Return rs -> Forall2 maps1 l rs.
Proof.
  revert rs. induction l as [|e l IH]; intros rs; simpl.
  - intros [= <-]. constructor.
  - destruct (missing ["timestamp"] e) eqn:E1; [done|].
    destruct (milliseconds (field "timestamp" e)) as [ms|] eqn:E2; [|done].
    destruct (missing ("device_id" :: _) e) eqn:E3; simpl; [done|].
    destruct (run1 l) as [[rs'|] out]; simpl; [|done]. intros [= <-].
    constructor; [|by apply IH]. split; [|by exists ms].
    apply complete_cons. split; by apply missing_complete.
Qed.

Lemma run1_convertible l :
  forallb convertible1 l = true -> exists rs, fst (run1 l) = Return rs.
Proof.
  induction l as [|e l IH]; simpl; [by exists []|].
  intros [[Hc Ht]%andb_true_iff Hl]%andb_true_iff.
  apply complete_cons in Hc. destruct Hc as [Hc1 Hc2].
  apply complete_missing in Hc1, Hc2. unfold timestamp_ok in Ht.
  rewrite Hc1 in *. rewrite Hc2.
  destruct (milliseconds (field "timestamp" e)) as [ms|]; [|done].
  destruct (IH Hl) as [rs Hrs]. destruct (run1 l) as [[rs'|] out]; [|done].
  by eexists.
Qed.

Lemma run1_incomplete l :
  forallb (complete keys1) l = false -> exists x, fst (run1 l) = Raise x.
Proof.
  induction l as [|e l IH]; simpl; [done|].
  destruct (missing ["timestamp"] e) eqn:E1; [by eexists|].
  destruct (milliseconds (field "timestamp" e)) as [ms|]; [|by eexists].
  destruct (missing ("device_id" :: _) e) eqn:E3; simpl; [by eexists|].
  assert (Hc : complete keys1 e = true).
  { apply complete_cons. split; by apply missing_complete. }
  rewrite Hc. simpl. intros [x Hx]%IH.
  destruct (run1 l) as [[rs'|] out]; [done|]. by eexists.
Qed.

Lemma run1_fault_kind l x :
  forallb is_object l = true -> forallb timestamp_ok l = true ->
  fst (run1 l) = Raise x -> exists k, k ∈ keys1 /\ x = KeyError k.
Proof.
  induction l as [|e l IH]; simpl; [done|].
  intros [He Hl]%andb_true_iff [Ht Hts]%andb_true_iff.
  destruct e; try done. unfold timestamp_ok in Ht.
  destruct (missing ["timestamp"] (JDict members)) eqn:E1.
  { intros [= ->]. apply missing_object in E1.
    destruct E1 as (k & Hk & _ & ->). exists k. split; [|done].
    apply list_elem_of_singleton in Hk. subst. apply list_elem_of_here. }
  destruct (milliseconds (field "timestamp" (JDict members))) as [ms|]; [|done].
  destruct (missing ("device_id" :: _) (JDict members)) eqn:E3.
  { intros [= ->]. apply missing_object in E3.
    destruct E3 as (k & Hk & _ & ->). exists k. split; [|done].
    by apply list_elem_of_further. }
  destruct (run1 l) as [[rs'|y] out] eqn:E; [done|]. simpl.
  intros [= ->]. by apply IH.
Qed.

Lemma truthy_object k d v : assoc k d = Some v -> truthy (JDict d) = true.
Proof. by destruct d. Qed.

Lemma transform_format1_to_unified_result data w w' :
  fst (transform_format1_to_unified data w) =
  fst (transform_format1_to_unified data w').
Proof.
  by rewrite !(steady_observe _ (steady_transform_format1_to_unified data)).
Qed.

Lemma transform_format1_to_unified_frame data w :
  exists out, snd (transform_format1_to_unified data w) = say out w.
Proof.
  eexists. by rewrite (steady_observe _ (steady_transform_format1_to_unified data)).
Qed.

Lemma main_proceeds w unified1 unified2 :
  truthy (loaded (files w !! "data-1.json")) = true ->
  truthy (loaded (files w !! "data-2.json")) = true ->
  fst (transform_format1_to_unified (loaded (files w !! "data-1.json")) w) = Return unified1 ->
  fst (transform_format2_to_unified (loaded (files w !! "data-2.json")) w) = Return unified2 ->
  exists out, main w = epilogue (unified1 ++ unified2) (say out w).
Proof.
  intros T1 T2 H1 H2. rewrite main_run. cbv zeta. rewrite T1, T2. simpl.
  destruct (transform_format1_to_unified_frame (loaded (files w !! "data-1.json"))
              (say (greeting w ++ proceed_lines) w)) as [out Hout].
  rewrite (transform_format1_to_unified_result _ w (say (greeting w ++ proceed_lines) w)) in H1.
  destruct (transform_format1_to_unified _ _) as [r w']. simpl in *. subst.
  rewrite transform_format2_to_unified_silent.
  rewrite transform_format2_to_unified_silent in H2. simpl in H2. rewrite H2.
  rewrite say_say. by eexists.
Qed.

Lemma main_propagates w x :
  truthy (loaded (files w !! "data-1.json")) = true ->
  truthy (loaded (files w !! "data-2.json")) = true ->
  fst (transform_format1_to_unified (loaded (files w !! "data-1.json")) w) = Raise x \/
  ((exists unified1,
      fst (transform_format1_to_unified (loaded (files w !! "data-1.json")) w)
      = Return unified1) /\
   fst (transform_format2_to_unified (loaded (files w !! "data-2.json")) w) = Raise x) ->
  exists out, main w = (Raise x, say out w).
Proof.
  intros T1 T2 H. rewrite main_run. cbv zeta. rewrite T1, T2. simpl.
  destruct (transform_format1_to_unified_frame (loaded (files w !! "data-1.json"))
              (say (greeting w ++ proceed_lines) w)) as [out Hout].
  rewrite (transform_format1_to_unified_result _ w (say (greeting w ++ proceed_lines) w)) in H.
  destruct (transform_format1_to_unified _ _) as [r w']. simpl in *. subst.
  rewrite say_say. destruct H as [->|[[u1 ->] H2]]; [by eexists|].
  rewrite transform_format2_to_unified_silent.
  rewrite transform_format2_to_unified_silent in H2. simpl in H2. rewrite H2.
  by eexists.
Qed.

(** ** The normalizer *)

Lemma fallback_run s w :
  (print (invalid_timestamp_line (JStr s));; mret 0) w = fallback s w.
Proof.
  unfold fallback. rewrite bind_run. destruct (encodable s) eqn:E.
  - rewrite print_run; [done|]. simpl. by rewrite E.
  - rewrite print_fails; [done|]. simpl. by rewrite E.
Qed.

Lemma iso_to_milliseconds_str s w :
  iso_to_milliseconds (JStr s) w =
  match convert (replace "Z" "+00:00" s) w with
  | (Raise e, w') => if is_value_error e then fallback s w' else (Raise e, w')
  | r => r
  end.
Proof.
  unfold iso_to_milliseconds, try_except_ValueError, call_replace.
  rewrite bind_run. unfold mret at 1, py_ret. cbv beta iota.
  fold (convert (replace "Z" "+00:00" s)).
  destruct (convert _ w) as [[z|e] w']; [done|].
  destruct (is_value_error e); [|done]. apply fallback_run.
Qed.

(** The normalizer returns on a string what it returns on the string with
    every [Z] already rewritten. *)
Lemma iso_to_milliseconds_replace s w :
  fst (iso_to_milliseconds (JStr s) w) =
  fst (iso_to_milliseconds (JStr (replace "Z" "+00:00" s)) w).
Proof.
  rewrite !iso_to_milliseconds_str, replace_idempotent.
  destruct (convert _ w) as [[z|e] w']; [done|].
  destruct (is_value_error e); [|done].
  unfold fallback. rewrite encodable_replace. by destruct (encodable s).
Qed.

Lemma z_suffix_is_utc_offset t w :
  fst (iso_to_milliseconds (JStr (t +:+ "Z")) w) =
  fst (iso_to_milliseconds (JStr (t +:+ "+00:00")) w).
Proof.
  rewrite (iso_to_milliseconds_replace (t +:+ "Z")).
  rewrite (iso_to_milliseconds_replace (t +:+ "+00:00")).
  by rewrite !replace_app.
Qed.

(** On a string that the parser rejects the normalizer ends in its
    [except] branch. *)
Lemma rejected_timestamp_run s w :
  fromisoformat (replace "Z" "+00:00" s) = Raise ValueError ->
  iso_to_milliseconds (JStr s) w = fallback s w.
Proof.
  intros H. rewrite iso_to_milliseconds_str. unfold convert.
  rewrite bind_run. unfold lift at 1. by rewrite H.
Qed.

(** ** The mappers *)

(** C5 — a document without the list key of a mapper is mapped to the empty
    list: the mapper returns, raises nothing, prints nothing. *)
Theorem absent_key_yields_empty_list d1 d2 w :
  assoc "telemetry" d1 = None ->
  assoc "sensors" d2 = None ->
  transform_format1_to_unified (JDict d1) w = (Return [], w) /\
  transform_format2_to_unified (JDict d2) w = (Return [], w).
Proof.
  intros H1 H2.
  unfold transform_format1_to_unified, transform_format2_to_unified.
  rewrite !bind_run. simpl. rewrite H1, H2.
  rewrite !bool_decide_eq_false_2 by (intros [? ?]; done). done.
Qed.

Lemma maps1_lookup l rs i e :
  Forall2 maps1 l rs -> l !! i = Some e ->
  exists ms, milliseconds (field "timestamp" e) = Return ms /\
             rs !! i = Some (record_of_format1 ms e).
Proof.
  intros H He. destruct (Forall2_lookup_l _ _ _ _ _ H He) as (r & Hr & _ & ms & Hms & ->).
  by exists ms.
Qed.

(** C7 (amended) — on a document whose list has [N] elements, each with the
    five fields, a mapper returns [N] records and record [i] is built from
    element [i]; for Format-A this needs the normalizer to return on each
    timestamp. *)
Theorem mappers_keep_length_and_order d1 d2 l1 l2 w :
  assoc "telemetry" d1 = Some (JList l1) ->
  assoc "sensors" d2 = Some (JList l2) ->
  forallb convertible1 l1 = true ->
  forallb (complete keys2) l2 = true ->
  (exists out1,
     fst (transform_format1_to_unified (JDict d1) w) = Return out1 /\
     length out1 = length l1 /\
     forall i e, l1 !! i = Some e ->
       exists ms, milliseconds (field "timestamp" e) = Return ms /\
                  out1 !! i = Some (record_of_format1 ms e)) /\
  (exists out2,
     fst (transform_format2_to_unified (JDict d2) w) = Return out2 /\
     length out2 = length l2 /\
     forall i e, l2 !! i = Some e -> out2 !! i = Some (record_of_format2 e)).
Proof.
  intros H1 H2 C1 C2. split.
  - rewrite (transform_format1_to_unified_list _ _ _ H1). simpl.
    destruct (run1_convertible _ C1) as [rs Hrs]. exists rs.
    pose proof (run1_returns _ _ Hrs) as F. split; [done|]. split.
    + symmetry. by eapply Forall2_length.
    + intros i e He. by eapply maps1_lookup.
  - rewrite (transform_format2_to_unified_list _ _ _ H2). simpl.
    apply first_fault_None in C2; [|done]. rewrite C2.
    eexists. split; [done|]. split; [by rewrite length_map|].
    intros i e He. by rewrite list_lookup_fmap, He.
Qed.

(** C6 (amended) — when an element of the list lacks a required field the
    mapper raises: no list is returned, the exception reaches [main], and
    [main] ends with it before anything is written.  The exception is the
    [KeyError] of a required field when the elements are objects and, for
    Format-A, the normalizer returns on the timestamps present. *)
Theorem missing_field_aborts d1 d2 l1 l2 w :
  assoc "telemetry" d1 = Some (JList l1) ->
  assoc "sensors" d2 = Some (JList l2) ->
  forallb (complete keys1) l1 = false ->
  forallb (complete keys2) l2 = false ->
  (exists x out,
     transform_format1_to_unified (JDict d1) w = (Raise x, say out w) /\
     (forallb is_object l1 = true -> forallb timestamp_ok l1 = true ->
      exists k, k ∈ keys1 /\ x = KeyError k) /\
     (files w !! "data-1.json" = Some (Document (JDict d1)) ->
      truthy (loaded (files w !! "data-2.json")) = true ->
      exists out', main w = (Raise x, say out' w))) /\
  (exists x,
     transform_format2_to_unified (JDict d2) w = (Raise x, w) /\
     (forallb is_object l2 = true -> exists k, k ∈ keys2 /\ x = KeyError k) /\
     (files w !! "data-2.json" = Some (Document (JDict d2)) ->
      truthy (loaded (files w !! "data-1.json")) = true ->
      (exists unified1,
         fst (transform_format1_to_unified (loaded (files w !! "data-1.json")) w)
         = Return unified1) ->
      exists out', main w = (Raise x, say out' w))).
Proof.
  intros H1 H2 C1 C2. split.
  - destruct (run1_incomplete _ C1) as [x Hx]. exists x, (snd (run1 l1)).
    rewrite (transform_format1_to_unified_list _ _ _ H1).
    split; [by rewrite <- Hx; destruct (run1 l1)|]. split.
    + intros O T. by eapply run1_fault_kind.
    + intros F T. apply main_propagates; rewrite ?F; simpl; try done.
      * by eapply truthy_object.
      * left. by rewrite (transform_format1_to_unified_list _ _ _ H1).
  - rewrite (transform_format2_to_unified_list _ _ _ H2).
    destruct (first_fault keys2 l2) as [x|] eqn:E.
    + exists x. split; [done|]. split.
      * intros O. by eapply first_fault_objects.
      * intros F T U. apply main_propagates; rewrite ?F; simpl; try done.
        -- by eapply truthy_object.
        -- right. split; [done|].
           by rewrite (transform_format2_to_unified_list _ _ _ H2), E.
    + apply first_fault_None in E; [congruence|done].
Qed.

(** The entries a mapper went through when it returned. *)
Lemma transform_format1_to_unified_returns data w out :
  fst (transform_format1_to_unified data w) = Return out ->
  exists es, Forall2 maps1 es out /\
    forall d l, data = JDict d -> assoc "telemetry" d = Some (JList l) -> es = l.
Proof.
  unfold transform_format1_to_unified. rewrite bind_run.
  destruct data as [| | | |s|l|d]; try discriminate; simpl.
  - destruct (is_substring "telemetry" s); simpl; [discriminate|].
    intros [= <-]. exists []. split; [constructor|discriminate].
  - destruct (existsb (is_str "telemetry") l); simpl; [discriminate|].
    intros [= <-]. exists []. split; [constructor|discriminate].
  - destruct (assoc "telemetry" d) as [v|] eqn:E.
    + rewrite bool_decide_eq_true_2 by eauto. simpl.
      unfold mret at 1, py_ret. cbv beta iota. rewrite bind_run.
      destruct v as [| | | |s|l|d']; try discriminate; simpl;
        rewrite ret_bind, format1_loop_run; simpl;
        destruct (fst (run1 _)) as [rs|] eqn:R; try discriminate;
        intros [= <-]; eexists; (split; [by apply run1_returns|]);
        intros d0 l0 Hd A; injection Hd as <-; congruence.
    + rewrite bool_decide_eq_false_2 by (intros [? ?]; done). simpl.
      intros [= <-]. exists []. split; [constructor|]. intros d0 l0 Hd A. injection Hd as <-. congruence.
Qed.

Lemma transform_format2_to_unified_returns data w out :
  fst (transform_format2_to_unified data w) = Return out ->
  exists es, out = map record_of_format2 es /\
    forall d l, data = JDict d -> assoc "sensors" d = Some (JList l) -> es = l.
Proof.
  unfold transform_format2_to_unified. rewrite bind_run.
  destruct data as [| | | |s|l|d]; try discriminate; simpl.
  - destruct (is_substring "sensors" s); simpl; [discriminate|].
    intros [= <-]. exists []. split; [done|discriminate].
  - destruct (existsb (is_str "sensors") l); simpl; [discriminate|].
    intros [= <-]. exists []. split; [done|discriminate].
  - destruct (assoc "sensors" d) as [v|] eqn:E.
    + rewrite bool_decide_eq_true_2 by eauto. simpl.
      unfold mret at 1, py_ret. cbv beta iota. rewrite bind_run.
      destruct v as [| | | |s|l|d']; try discriminate; simpl;
        rewrite ret_bind, format2_loop_run; simpl;
        destruct (first_fault keys2 _) as [x|] eqn:R; try discriminate;
        intros [= <-]; eexists; (split; [reflexivity|]);
        intros d0 l0 Hd A; injection Hd as <-; congruence.
    + rewrite bool_decide_eq_false_2 by (intros [? ?]; done). simpl.
      intros [= <-]. exists []. split; [done|]. intros d0 l0 Hd A. injection Hd as <-. congruence.
Qed.

(** A loop that starts on a string stops there: a string is not indexed by
    a key. *)
Lemma run1_string g l rs : fst (run1 (JStr g :: l)) <> Return rs.
Proof. simpl. unfold missing. simpl. discriminate. Qed.

Lemma first_fault_string g l : first_fault keys2 (JStr g :: l) <> None.
Proof. simpl. unfold missing. simpl. discriminate. Qed.

Lemma chars_strings s : chars s = [] \/ exists g l, chars s = JStr g :: l.
Proof.
  unfold chars. destruct (code_points s) as [|g gs]; [by left|right].
  by eexists _, _.
Qed.

Lemma keys_strings (d : list (string * json)) :
  map (fun kv => JStr (fst kv)) d = [] \/
  exists g l, map (fun kv => JStr (fst kv)) d = JStr g :: l.
Proof. destruct d as [|[k v] d]; [by left|right]. by eexists _, _. Qed.

(** When a mapper returns, its records are those of the input elements,
    one for one. *)
Lemma transform_format1_to_unified_entries data w out :
  fst (transform_format1_to_unified data w) = Return out ->
  Forall2 maps1 (entries "telemetry" data) out.
Proof.
  unfold transform_format1_to_unified. rewrite bind_run.
  destruct data as [| | | |s|l|d]; try discriminate; simpl.
  - destruct (is_substring "telemetry" s); simpl; [discriminate|].
    intros [= <-]. constructor.
  - destruct (existsb (is_str "telemetry") l); simpl; [discriminate|].
    intros [= <-]. constructor.
  - destruct (assoc "telemetry" d) as [v|] eqn:E.
    + rewrite bool_decide_eq_true_2 by eauto. simpl.
      unfold mret at 1, py_ret. cbv beta iota. rewrite bind_run.
      destruct v as [| | | |s|l|d']; try discriminate; simpl;
        rewrite ret_bind, format1_loop_run; simpl.
      * destruct (chars_strings s) as [-> | (g & l & ->)].
        -- simpl. intros [= <-]. constructor.
        -- destruct (fst (run1 _)) as [rs|] eqn:R; [|discriminate].
           by apply run1_string in R.
      * destruct (fst (run1 l)) as [rs|] eqn:R; [|discriminate].
        intros [= <-]. by apply run1_returns.
      * destruct (keys_strings d') as [-> | (g & l & ->)].
        -- simpl. intros [= <-]. constructor.
        -- destruct (fst (run1 _)) as [rs|] eqn:R; [|discriminate].
           by apply run1_string in R.
    + rewrite bool_decide_eq_false_2 by (intros [? ?]; done). simpl.
      intros [= <-]. constructor.
Qed.

Lemma transform_format2_to_unified_entries data w out :
  fst (transform_format2_to_unified data w) = Return out ->
  out = map record_of_format2 (entries "sensors" data) /\
  forallb (complete keys2) (entries "sensors" data) = true.
Proof.
  unfold transform_format2_to_unified. rewrite bind_run.
  destruct data as [| | | |s|l|d]; try discriminate; simpl.
  - destruct (is_substring "sensors" s); simpl; [discriminate|]. by intros [= <-].
  - destruct (existsb (is_str "sensors") l); simpl; [discriminate|]. by intros [= <-].
  - destruct (assoc "sensors" d) as [v|] eqn:E.
    + rewrite bool_decide_eq_true_2 by eauto. simpl.
      unfold mret at 1, py_ret. cbv beta iota. rewrite bind_run.
      destruct v as [| | | |s|l|d']; try discriminate; simpl;
        rewrite ret_bind, format2_loop_run; simpl.
      * destruct (chars_strings s) as [-> | (g & l & ->)]; [by intros [= <-]|].
        destruct (first_fault keys2 _) eqn:R; [discriminate|].
        by apply first_fault_string in R.
      * destruct (first_fault keys2 l) eqn:R; [discriminate|].
        intros [= <-]. split; [done|]. by apply first_fault_None in R.
      * destruct (keys_strings d') as [-> | (g & l & ->)]; [by intros [= <-]|].
        destruct (first_fault keys2 _) eqn:R; [discriminate|].
        by apply first_fault_string in R.
    + rewrite bool_decide_eq_false_2 by (intros [? ?]; done). simpl.
      by intros [= <-].
Qed.

(** C8 (amended) — the records a mapper returns are those of its input
    elements, one for one and in order: each element has the five input
    fields, and its record has exactly the five unified fields, in order,
    each holding the value that the element holds under the field it is
    copied from; the timestamp of a Format-A record is the integer the
    normalizer returned on the element's timestamp.  The other fields have
    the declared types when the input fields have them. *)
Theorem unified_records_have_five_fields data1 data2 out1 out2 w :
  fst (transform_format1_to_unified data1 w) = Return out1 ->
  fst (transform_format2_to_unified data2 w) = Return out2 ->
  Forall2 (fun e r =>
             complete keys1 e = true /\
             exists ms, milliseconds (field "timestamp" e) = Return ms /\
                        r = unified (field "device_id" e) (JInt ms)
                              (field "temperature" e) (field "humidity" e)
                              (field "pressure" e))
    (entries "telemetry" data1) out1 /\
  Forall2 (fun e r =>
             complete keys2 e = true /\
             r = unified (field "id" e) (field "ts" e) (field "temp" e)
                   (field "hum" e) (field "press" e))
    (entries "sensors" data2) out2 /\
  (forallb typed1 (entries "telemetry" data1) = true ->
   forallb well_typed out1 = true) /\
  (forallb typed2 (entries "sensors" data2) = true ->
   forallb well_typed out2 = true).
Proof.
  intros H1 H2.
  pose proof (transform_format1_to_unified_entries _ _ _ H1) as F1.
  destruct (transform_format2_to_unified_entries _ _ _ H2) as [-> C2].
  split; [exact F1|]. split; [|split].
  - clear H2. induction (entries "sensors" data2) as [|e l IH]; [constructor|].
    simpl in C2. apply andb_true_iff in C2. destruct C2 as [Ce Cl].
    constructor; [by split|by apply IH].
  - intros T. clear H1.
    induction F1 as [|e r es rs (_ & ms & _ & ->) _ IH]; [done|].
    simpl in T. apply andb_true_iff in T. destruct T as [T1 T2].
    simpl forallb. rewrite (IH T2), andb_true_r.
    unfold typed1 in T1. unfold well_typed, record_of_format1, unified. simpl.
    by rewrite !andb_true_r.
  - intros T. clear H2 C2.
    induction (entries "sensors" data2) as [|e l IH]; [done|].
    simpl in T. apply andb_true_iff in T. destruct T as [T1 T2].
    simpl map. simpl forallb. rewrite (IH T2), andb_true_r. exact T1.
Qed.

(** ** Merging, saving, giving up *)

Lemma locked_say out w : locked (say out w) = locked w.
Proof. reflexivity. Qed.

Lemma files_say out w : files (say out w) = files w.
Proof. reflexivity. Qed.

Lemma stdout_say out w : stdout (say out w) = stdout w ++ out.
Proof. reflexivity. Qed.

Lemma main_saves w unified1 unified2 :
  truthy (loaded (files w !! "data-1.json")) = true ->
  truthy (loaded (files w !! "data-2.json")) = true ->
  fst (transform_format1_to_unified (loaded (files w !! "data-1.json")) w) = Return unified1 ->
  fst (transform_format2_to_unified (loaded (files w !! "data-2.json")) w) = Return unified2 ->
  "output-unified.json" ∉ locked w ->
  files (snd (main w)) !! "output-unified.json" =
  Some (output_document (unified1 ++ unified2)).
Proof.
  intros T1 T2 H1 H2 L.
  destruct (main_proceeds _ _ _ T1 T2 H1 H2) as [out ->].
  rewrite epilogue_files, locked_say, files_say.
  rewrite bool_decide_eq_false_2 by done. apply lookup_insert_eq.
Qed.

(** C1 — the list that [main] saves is the Format-A mapper's list followed
    by the Format-B mapper's list: [M + N] records, of which record [i < M]
    is built from Format-A element [i] and record [M + j] from Format-B
    element [j]. *)
Theorem merge_puts_format1_before_format2 w d1 d2 l1 l2 unified1 unified2 :
  files w !! "data-1.json" = Some (Document (JDict d1)) ->
  files w !! "data-2.json" = Some (Document (JDict d2)) ->
  assoc "telemetry" d1 = Some (JList l1) ->
  assoc "sensors" d2 = Some (JList l2) ->
  fst (transform_format1_to_unified (JDict d1) w) = Return unified1 ->
  fst (transform_format2_to_unified (JDict d2) w) = Return unified2 ->
  "output-unified.json" ∉ locked w ->
  let merged := unified1 ++ unified2 in
  files (snd (main w)) !! "output-unified.json" = Some (output_document merged) /\
  length merged = (length l1 + length l2)%nat /\
  take (length l1) merged = unified1 /\
  drop (length l1) merged = unified2 /\
  (forall i e, l1 !! i = Some e ->
     exists ms, milliseconds (field "timestamp" e) = Return ms /\
                merged !! i = Some (record_of_format1 ms e)) /\
  (forall j e, l2 !! j = Some e ->
     merged !! (length l1 + j)%nat = Some (record_of_format2 e)).
Proof.
  intros F1 F2 A1 A2 H1 H2 L merged.
  assert (S : files (snd (main w)) !! "output-unified.json" = Some (output_document merged)).
  { apply main_saves; rewrite ?F1, ?F2; simpl; try done; by eapply truthy_object. }
  destruct (transform_format1_to_unified_returns _ _ _ H1) as (es1 & R1 & E1).
  destruct (transform_format2_to_unified_returns _ _ _ H2) as (es2 & R2 & E2).
  rewrite (E1 _ _ eq_refl A1) in R1. rewrite (E2 _ _ eq_refl A2) in R2.
  assert (N1 : length unified1 = length l1) by (symmetry; by eapply Forall2_length).
  subst merged. split; [done|]. split; [|split; [|split; [|split]]].
  - by rewrite length_app, N1, R2, length_map.
  - rewrite <- N1. by rewrite take_app_length.
  - rewrite <- N1. by rewrite drop_app_length.
  - intros i e He. destruct (maps1_lookup _ _ _ _ R1 He) as (ms & Hms & Hr).
    exists ms. split; [done|]. by apply lookup_app_l_Some.
  - intros j e He. rewrite <- N1, lookup_app_r by lia.
    replace (length unified1 + j - length unified1)%nat with j by lia.
    by rewrite R2, list_lookup_fmap, He.
Qed.

Lemma epilogue_stdout u w :
  exists out, stdout (snd (epilogue u w)) = stdout w ++ out.
Proof.
  unfold epilogue.
  do 2 (rewrite bind_run, print_run by reflexivity; cbv beta iota).
  rewrite bind_run, save_unified_data_run by reflexivity.
  case_bool_decide; cbv beta iota;
    match goal with
    | |- context [verdict ?w'] => destruct (readonly_verdict w') as [out ->]
    end; simpl; rewrite <- !app_assoc; by eexists.
Qed.

Lemma main_announces w :
  truthy (loaded (files w !! "data-1.json")) = true ->
  truthy (loaded (files w !! "data-2.json")) = true ->
  exists out, stdout (snd (main w)) = stdout w ++ greeting w ++ proceed_lines ++ out.
Proof.
  intros T1 T2. rewrite main_run. cbv zeta. rewrite T1, T2. simpl negb. simpl orb.
  cbv iota.
  destruct (transform_format1_to_unified_frame (loaded (files w !! "data-1.json"))
              (say (greeting w ++ proceed_lines) w)) as [out Hout].
  destruct (transform_format1_to_unified _ _) as [[u1|x] w'];
    change (w' = say out (say (greeting w ++ proceed_lines) w)) in Hout; subst w'.
  - rewrite transform_format2_to_unified_silent.
    destruct (fst (transform_format2_to_unified _ _)) as [u2|x]; cbv beta iota.
    + destruct (epilogue_stdout (u1 ++ u2) (say out (say (greeting w ++ proceed_lines) w)))
        as [out' ->].
      exists (out ++ out'). by rewrite !stdout_say, <- !app_assoc.
    + exists out. change (snd (?a, ?b)) with b. by rewrite !stdout_say, <- !app_assoc.
  - exists out. change (snd (?a, ?b)) with b. by rewrite !stdout_say, <- !app_assoc.
Qed.

Lemma falsy_aborts w :
  truthy (loaded (files w !! "data-1.json")) = false \/
  truthy (loaded (files w !! "data-2.json")) = false ->
  aborts w.
Proof.
  intros H. unfold aborts. rewrite main_run. cbv zeta.
  destruct H as [-> | ->]; [done|]. by rewrite orb_true_r.
Qed.

Lemma aborts_falsy w :
  aborts w ->
  truthy (loaded (files w !! "data-1.json")) = false \/
  truthy (loaded (files w !! "data-2.json")) = false.
Proof.
  intros A.
  destruct (truthy (loaded (files w !! "data-1.json"))) eqn:T1; [|by left].
  destruct (truthy (loaded (files w !! "data-2.json"))) eqn:T2; [|by right].
  destruct (main_announces _ T1 T2) as [out H]. unfold aborts in A.
  rewrite A in H. change (snd (?a, ?b)) with b in H. rewrite stdout_say in H.
  apply app_inv_head in H. apply app_inv_head in H. unfold proceed_lines in H.
  discriminate H.
Qed.

(** C9 (amended) — [main] gives up, returning with the disk untouched,
    exactly when one of the two loaded documents is falsy: that is the
    empty object standing for a file that was missing or not JSON, and also
    any file whose JSON is empty or zero.  Otherwise it goes on to the
    mappers, and when both return it saves their lists, joined. *)
Theorem aborts_iff_a_document_is_falsy w :
  (aborts w <->
   truthy (loaded (files w !! "data-1.json")) = false \/
   truthy (loaded (files w !! "data-2.json")) = false) /\
  (forall unified1 unified2,
     truthy (loaded (files w !! "data-1.json")) = true ->
     truthy (loaded (files w !! "data-2.json")) = true ->
     fst (transform_format1_to_unified (loaded (files w !! "data-1.json")) w)
     = Return unified1 ->
     fst (transform_format2_to_unified (loaded (files w !! "data-2.json")) w)
     = Return unified2 ->
     "output-unified.json" ∉ locked w ->
     files (snd (main w)) !! "output-unified.json"
     = Some (output_document (unified1 ++ unified2))).
Proof.
  split; [split; [apply aborts_falsy|apply falsy_aborts]|].
  intros u1 u2. apply main_saves.
Qed.

(** C10 — what [main] tests is the value [load_json_file] hands back, and
    that value is the empty object for a missing file, for a file that is
    not JSON, and for a file that holds [{}] alike: in all three cases
    [main] gives up and writes nothing. *)
Theorem empty_document_aborts_like_a_failed_load w filename :
  filename = "data-1.json" \/ filename = "data-2.json" ->
  empty_or_failed (files w !! filename) ->
  fst (load_json_file filename w) = Return (JDict []) /\
  aborts w /\ files (snd (main w)) = files w.
Proof.
  intros Hf He.
  assert (L : loaded (files w !! filename) = JDict []).
  { by destruct He as [->|[->| ->]]. }
  assert (A : aborts w).
  { apply falsy_aborts. destruct Hf as [-> | ->]; rewrite L; auto. }
  split; [|split; [done|unfold aborts in A; by rewrite A]].
  rewrite load_json_file_run, L; [done|]. by destruct Hf as [-> | ->].
Qed.

End Runs.

(** * The program on the reference runtime *)

#[local] Abbreviation run_format1 :=
  (transform_format1_to_unified Reference.fromisoformat Reference.mktime).
#[local] Abbreviation run_main := (main Reference.fromisoformat Reference.mktime).

(** C2 (amended) — the normalizer returns 1697380225123, the epoch
    milliseconds of 2023-10-15T14:30:25.123 UTC, for that instant written
    with [Z] and written with [+00:00]; and whatever the parser, a string
    that ends in [Z] gets the result of the same string ending in
    [+00:00]. *)
Theorem z_suffix_and_utc_offset_agree :
  fst (Reference.normalize "2023-10-15T14:30:25.123Z" empty_world) = Return 1697380225123 /\
  fst (Reference.normalize "2023-10-15T14:30:25.123+00:00" empty_world) = Return 1697380225123 /\
  forall fromisoformat mktime t w,
    fst (iso_to_milliseconds fromisoformat mktime (JStr (t +:+ "Z")) w) =
    fst (iso_to_milliseconds fromisoformat mktime (JStr (t +:+ "+00:00")) w).
Proof.
  split; [by vm_compute|]. split; [by vm_compute|].
  intros. apply z_suffix_is_utc_offset.
Qed.

(** C2, as stated, fails: the value in the docstring, 1697372225123, is not
    what the normalizer returns for 14:30:25.123Z; it is the instant
    12:17:05.123Z of that day. *)
Lemma docstring_example_is_off :
  fst (Reference.normalize "2023-10-15T14:30:25.123Z" empty_world) <> Return 1697372225123 /\
  fst (Reference.normalize "2023-10-15T12:17:05.123Z" empty_world) = Return 1697372225123.
Proof. split; [by vm_compute|by vm_compute]. Qed.

(** C3 — the normalizer is one millisecond short of the elapsed
    milliseconds on well-formed timestamps: 1.001 s after the epoch it
    returns 1000, because the double nearest to 1.001 times 1000 rounds
    below 1001; likewise in 2004. *)
Theorem normalizer_loses_a_millisecond :
  (elapsed_milliseconds <$> Reference.parse "1970-01-01T00:00:01.001+00:00")
  = Some (Some 1001) /\
  fst (Reference.normalize "1970-01-01T00:00:01.001+00:00" empty_world) = Return 1000 /\
  fst (Reference.normalize "1970-01-01T00:00:01.001Z" empty_world) = Return 1000 /\
  (elapsed_milliseconds <$> Reference.parse "2004-09-18T11:17:23.087+00:00")
  = Some (Some 1095506243087) /\
  fst (Reference.normalize "2004-09-18T11:17:23.087Z" empty_world) = Return 1095506243086.
Proof. repeat split; by vm_compute. Qed.

(** C4 — the normalizer does not always return 0 on a string that the
    parser rejects.  Its [except] branch prints the string before it
    returns, and a string that standard output cannot encode makes that
    [print] raise [UnicodeEncodeError]: so it is with the lone surrogate
    that the JSON text ["\ud800"] loads as, and the exception leaves the
    Format-A mapper too.  On every other rejected string the branch prints
    the diagnostic and returns 0. *)
Theorem diagnostic_of_rejected_timestamp_can_raise :
  (forall fromisoformat mktime s w,
     fromisoformat (replace "Z" "+00:00" s) = Raise ValueError ->
     iso_to_milliseconds fromisoformat mktime (JStr s) w =
     if encodable s then (Return 0, say [invalid_timestamp_line (JStr s)] w)
     else (Raise UnicodeEncodeError, w)) /\
  Reference.fromisoformat (replace "Z" "+00:00" Sample.lone_surrogate) = Raise ValueError /\
  Reference.normalize Sample.lone_surrogate empty_world
  = (Raise UnicodeEncodeError, empty_world) /\
  run_format1 (JDict [("telemetry", JList [Sample.surrogate_timestamp])]) empty_world
  = (Raise UnicodeEncodeError, empty_world).
Proof.
  split; [intros; by apply rejected_timestamp_run|].
  split; [reflexivity|]. split; by vm_compute.
Qed.

Lemma diagnostic_of_rejected_timestamp_can_raise_witness :
  Reference.fromisoformat (replace "Z" "+00:00" "next Tuesday") = Raise ValueError /\
  Reference.normalize "next Tuesday" empty_world =
  (Return 0, say [invalid_timestamp_line (JStr "next Tuesday")] empty_world).
Proof.
  split; [reflexivity|].
  apply (proj1 diagnostic_of_rejected_timestamp_can_raise
           Reference.fromisoformat Reference.mktime "next Tuesday" empty_world).
  reflexivity.
Defined.

Lemma absent_key_yields_empty_list_witness :
  assoc "telemetry" [] = None /\ assoc "sensors" [] = None /\
  run_format1 (JDict []) empty_world = (Return [], empty_world) /\
  transform_format2_to_unified (JDict []) empty_world = (Return [], empty_world).
Proof.
  split; [reflexivity|]. split; [reflexivity|].
  apply (absent_key_yields_empty_list Reference.fromisoformat Reference.mktime
           [] [] empty_world); reflexivity.
Defined.

#[local] Abbreviation ms_of := (milliseconds Reference.fromisoformat Reference.mktime).

Lemma mappers_keep_length_and_order_witness :
  assoc "telemetry" Sample.members1 = Some (JList [Sample.entry1]) /\
  assoc "sensors" Sample.members2 = Some (JList [Sample.entry2]) /\
  forallb (convertible1 Reference.fromisoformat Reference.mktime) [Sample.entry1] = true /\
  forallb (complete keys2) [Sample.entry2] = true /\
  (exists out1,
     fst (run_format1 (JDict Sample.members1) empty_world) = Return out1 /\
     length out1 = length [Sample.entry1] /\
     forall i e, [Sample.entry1] !! i = Some e ->
       exists ms, ms_of (field "timestamp" e) = Return ms /\
                  out1 !! i = Some (record_of_format1 ms e)) /\
  (exists out2,
     fst (transform_format2_to_unified (JDict Sample.members2) empty_world) = Return out2 /\
     length out2 = length [Sample.entry2] /\
     forall i e, [Sample.entry2] !! i = Some e -> out2 !! i = Some (record_of_format2 e)).
Proof.
  split; [reflexivity|]. split; [reflexivity|].
  split; [vm_compute; reflexivity|]. split; [reflexivity|].
  apply (mappers_keep_length_and_order Reference.fromisoformat Reference.mktime
           Sample.members1 Sample.members2 [Sample.entry1] [Sample.entry2] empty_world).
  - reflexivity.
  - reflexivity.
  - vm_compute; reflexivity.
  - reflexivity.
Defined.

(** C7, as stated, fails for Format-A: an element that has all five fields,
    with a number for timestamp, makes the mapper raise [AttributeError]
    (numbers have no [replace]); no list is returned. *)
Lemma numeric_timestamp_returns_no_list :
  forallb (complete keys1) [Sample.numeric_timestamp] = true /\
  fst (run_format1 (JDict [("telemetry", JList [Sample.numeric_timestamp])]) empty_world)
  = Raise AttributeError.
Proof. split; [reflexivity|by vm_compute]. Qed.

Lemma missing_field_aborts_witness :
  let d1 := [("telemetry", JList [Sample.entry1; JDict [("device_id", JStr "sensor_003")]])] in
  let d2 := [("sensors", JList [JDict [("id", JStr "sensor_004")]])] in
  let w := World (<["data-1.json" := Document (JDict d1)]> Sample.disk) ∅ [] in
  (exists x out,
     run_format1 (JDict d1) w = (Raise x, say out w) /\
     (exists k, k ∈ keys1 /\ x = KeyError k) /\
     (exists out', run_main w = (Raise x, say out' w))) /\
  (exists x,
     transform_format2_to_unified (JDict d2) w = (Raise x, w) /\
     (exists k, k ∈ keys2 /\ x = KeyError k)).
Proof.
  intros d1 d2 w.
  destruct (missing_field_aborts Reference.fromisoformat Reference.mktime d1 d2
              [Sample.entry1; JDict [("device_id", JStr "sensor_003")]]
              [JDict [("id", JStr "sensor_004")]] w)
    as [(x & out & R1 & K1 & M1) (x2 & R2 & K2 & _)];
    [reflexivity|reflexivity|reflexivity|reflexivity|].
  split.
  - exists x, out. split; [exact R1|]. split.
    + apply K1; [reflexivity|vm_compute; reflexivity].
    + apply M1; [vm_compute; reflexivity|vm_compute; reflexivity].
  - exists x2. split; [exact R2|]. apply K2. reflexivity.
Defined.

(** C6, as stated, fails in the kind of the fault: an element that has only
    a numeric timestamp lacks four required fields, and the mapper raises
    [AttributeError] on the timestamp before it looks for them. *)
Lemma fault_is_not_always_a_key_error :
  forallb (complete keys1) [Sample.only_timestamp] = false /\
  fst (run_format1 (JDict [("telemetry", JList [Sample.only_timestamp])]) empty_world)
  = Raise AttributeError.
Proof. split; [reflexivity|by vm_compute]. Qed.

Lemma unified_records_have_five_fields_witness :
  let data1 := JDict [("telemetry", JList [Sample.entry1; Fixture.undated])] in
  let out1 := [record_of_format1 1697380225123 Sample.entry1;
               record_of_format1 0 Fixture.undated] in
  fst (run_format1 data1 empty_world) = Return out1 /\
  fst (transform_format2_to_unified (JDict Sample.members2) empty_world)
  = Return [record_of_format2 Sample.entry2] /\
  Forall2 (fun e r =>
             complete keys1 e = true /\
             exists ms, ms_of (field "timestamp" e) = Return ms /\
                        r = unified (field "device_id" e) (JInt ms)
                              (field "temperature" e) (field "humidity" e)
                              (field "pressure" e))
    [Sample.entry1; Fixture.undated] out1 /\
  Forall2 (fun e r =>
             complete keys2 e = true /\
             r = unified (field "id" e) (field "ts" e) (field "temp" e)
                   (field "hum" e) (field "press" e))
    [Sample.entry2] [record_of_format2 Sample.entry2] /\
  forallb typed1 [Sample.entry1; Fixture.undated] = true /\
  forallb typed2 [Sample.entry2] = true /\
  forallb well_typed out1 = true /\
  forallb well_typed [record_of_format2 Sample.entry2] = true.
Proof.
  intros data1 out1.
  assert (H1 : fst (run_format1 data1 empty_world) = Return out1)
    by (vm_compute; reflexivity).
  assert (H2 : fst (transform_format2_to_unified (JDict Sample.members2) empty_world)
               = Return [record_of_format2 Sample.entry2])
    by (vm_compute; reflexivity).
  destruct (unified_records_have_five_fields Reference.fromisoformat Reference.mktime
              data1 (JDict Sample.members2) _ _ empty_world H1 H2)
    as (F1 & F2 & T1 & T2).
  split; [exact H1|]. split; [exact H2|].
  split; [exact F1|]. split; [exact F2|].
  split; [reflexivity|]. split; [reflexivity|]. split.
  - apply T1. reflexivity.
  - apply T2. reflexivity.
Defined.

(** C8, as stated, fails: the mappers copy values as they are, so an input
    record with values of other types yields a unified record with them. *)
Lemma ill_typed_record_is_produced :
  fst (transform_format2_to_unified (JDict [("sensors", JList [Sample.ill_typed2])])
         empty_world)
  = Return [unified (JInt 7) (JStr "yesterday") JNull (JBool true) (JList [])] /\
  well_typed (unified (JInt 7) (JStr "yesterday") JNull (JBool true) (JList [])) = false.
Proof. split; [by vm_compute|reflexivity]. Qed.

Lemma merge_puts_format1_before_format2_witness :
  let merged := [record_of_format1 1697380225123 Sample.entry1;
                 record_of_format2 Sample.entry2] in
  files (snd (run_main Sample.start)) !! "output-unified.json"
  = Some (output_document merged) /\
  length merged = (length [Sample.entry1] + length [Sample.entry2])%nat /\
  take (length [Sample.entry1]) merged = [record_of_format1 1697380225123 Sample.entry1] /\
  drop (length [Sample.entry1]) merged = [record_of_format2 Sample.entry2].
Proof.
  intros merged.
  destruct (merge_puts_format1_before_format2 Reference.fromisoformat Reference.mktime
              Sample.start Sample.members1 Sample.members2
              [Sample.entry1] [Sample.entry2]
              [record_of_format1 1697380225123 Sample.entry1]
              [record_of_format2 Sample.entry2])
    as (S & N & T & D & _).
  - reflexivity.
  - reflexivity.
  - reflexivity.
  - reflexivity.
  - vm_compute; reflexivity.
  - vm_compute; reflexivity.
  - apply not_elem_of_empty.
  - repeat split; assumption.
Defined.

Lemma aborts_iff_a_document_is_falsy_witness :
  truthy (loaded (files Sample.start_empty1 !! "data-1.json")) = false /\
  aborts Reference.fromisoformat Reference.mktime Sample.start_empty1 /\
  truthy (loaded (files Sample.start !! "data-1.json")) = true /\
  truthy (loaded (files Sample.start !! "data-2.json")) = true /\
  files (snd (run_main Sample.start)) !! "output-unified.json"
  = Some (output_document [record_of_format1 1697380225123 Sample.entry1;
                           record_of_format2 Sample.entry2]).
Proof.
  split; [reflexivity|]. split.
  - apply (aborts_iff_a_document_is_falsy Reference.fromisoformat Reference.mktime
             Sample.start_empty1).
    left. reflexivity.
  - split; [reflexivity|]. split; [reflexivity|].
    apply (proj2 (aborts_iff_a_document_is_falsy Reference.fromisoformat Reference.mktime
                    Sample.start)
             [record_of_format1 1697380225123 Sample.entry1]
             [record_of_format2 Sample.entry2]).
    + reflexivity.
    + reflexivity.
    + vm_compute; reflexivity.
    + vm_compute; reflexivity.
    + apply not_elem_of_empty.
Defined.

(** C9, as stated, fails: with [{}] in the first input file both files load
    and parse, and [main] gives up all the same, writing nothing. *)
Lemma main_aborts_though_both_files_load :
  ~ (forall w, aborts Reference.fromisoformat Reference.mktime w <->
               load_failed (files w !! "data-1.json") \/
               load_failed (files w !! "data-2.json")).
Proof.
  intros H.
  assert (A : aborts Reference.fromisoformat Reference.mktime Sample.start_empty1)
    by (apply falsy_aborts; left; reflexivity).
  apply H in A. unfold load_failed in A.
  destruct A as [[A|A]|[A|A]]; vm_compute in A; discriminate A.
Qed.

Lemma empty_document_aborts_like_a_failed_load_witness :
  files Sample.start_empty1 !! "data-1.json" = Some (Document (JDict [])) /\
  fst (load_json_file "data-1.json" Sample.start_empty1) = Return (JDict []) /\
  aborts Reference.fromisoformat Reference.mktime Sample.start_empty1 /\
  files (snd (run_main Sample.start_empty1)) = files Sample.start_empty1.
Proof.
  split; [reflexivity|].
  apply (empty_document_aborts_like_a_failed_load Reference.fromisoformat
           Reference.mktime Sample.start_empty1 "data-1.json").
  - left. reflexivity.
  - right. right. reflexivity.
Defined.


(** * Further properties of the program *)

Section Further.

Context (fromisoformat : string -> outcome datetime).
Context (mktime : datetime -> outcome Z).

#[local] Abbreviation iso_to_milliseconds := (iso_to_milliseconds fromisoformat mktime).
#[local] Abbreviation format1_loop := (format1_loop fromisoformat mktime).
#[local] Abbreviation transform_format1_to_unified :=
  (transform_format1_to_unified fromisoformat mktime).
#[local] Abbreviation run_tests := (run_tests fromisoformat mktime).
#[local] Abbreviation main := (main fromisoformat mktime).
#[local] Abbreviation milliseconds := (milliseconds fromisoformat mktime).
#[local] Abbreviation diagnostics := (diagnostics fromisoformat mktime).
#[local] Abbreviation run1 := (run1 fromisoformat mktime).
#[local] Abbreviation verdict := (verdict fromisoformat mktime).
#[local] Abbreviation epilogue := (epilogue fromisoformat mktime).
#[local] Abbreviation convertible1 := (convertible1 fromisoformat mktime).
#[local] Abbreviation convert := (convert fromisoformat mktime).

(** X1 — the normalizer rewrites every [Z] of its input, not only a final
    one: it returns on a string what it returns on the string with each [Z]
    already replaced by [+00:00], and a string without [Z] reaches the
    parser as it is; a [ValueError] of the conversion, or of a subclass,
    leads to the [except] branch. *)
Theorem every_z_is_rewritten s w :
  fst (iso_to_milliseconds (JStr s) w) =
  fst (iso_to_milliseconds (JStr (replace "Z" "+00:00" s)) w) /\
  (is_substring "Z" s = false ->
   iso_to_milliseconds (JStr s) w =
   match convert s w with
   | (Raise e, w') => if is_value_error e then fallback s w' else (Raise e, w')
   | r => r
   end).
Proof.
  split.
  - apply iso_to_milliseconds_replace.
  - intros H. by rewrite iso_to_milliseconds_str, (replace_absent _ H).
Qed.

(** ** Saving *)

(** The file [load_json_file] finds is returned without a word. *)
Lemma load_json_file_document filename v w :
  files w !! filename = Some (Document v) ->
  load_json_file filename w = (Return v, w).
Proof. intros H. unfold load_json_file. by rewrite H. Qed.

(** X2 — what [save_unified_data] writes to a path that can be opened is
    what [load_json_file] reads back from it: the object with the list
    under [unified_telemetry]; no other file changes.  The one line printed
    names the path; with a path that standard output cannot encode that
    line fails, and so does the line of the handler, after the file is
    written. *)
Theorem saved_list_is_read_back u filename w :
  filename ∉ locked w ->
  fst (save_unified_data u filename w)
  = (if encodable filename then Return tt else Raise UnicodeEncodeError) /\
  fst (load_json_file filename (snd (save_unified_data u filename w)))
  = Return (JDict [("unified_telemetry", JList u)]) /\
  stdout (snd (load_json_file filename (snd (save_unified_data u filename w))))
  = stdout w ++ (if encodable filename then [saved_line filename] else []) /\
  forall other, other <> filename ->
    files (snd (save_unified_data u filename w)) !! other = files w !! other.
Proof.
  intros L. destruct (encodable filename) eqn:E.
  - rewrite save_unified_data_run, bool_decide_eq_false_2 by done.
    split; [done|].
    rewrite (load_json_file_document _ (JDict [("unified_telemetry", JList u)]))
      by apply lookup_insert_eq.
    split; [done|]. split; [done|].
    intros other Ho. simpl. by rewrite lookup_insert_ne.
  - rewrite save_unified_data_fails, bool_decide_eq_false_2 by done.
    split; [done|].
    rewrite (load_json_file_document _ (JDict [("unified_telemetry", JList u)]))
      by apply lookup_insert_eq.
    split; [done|]. split; [simpl; by rewrite app_nil_r|].
    intros other Ho. simpl. by rewrite lookup_insert_ne.
Qed.

(** X3 — [save_unified_data] swallows the failure of the write: when the
    path cannot be opened it prints one line naming the path and the
    error, returns, and leaves the disk as it was; whatever happens, only
    the named file can change.  It returns in every case but one: with a
    path that standard output cannot encode, the [print] of the handler
    itself raises. *)
Theorem save_raises_only_on_unprintable_path u filename w :
  fst (save_unified_data u filename w)
  = (if encodable filename then Return tt else Raise UnicodeEncodeError) /\
  (forall other, other <> filename ->
     files (snd (save_unified_data u filename w)) !! other = files w !! other) /\
  (filename ∈ locked w ->
   snd (save_unified_data u filename w)
   = if encodable filename then say [save_failed_line filename] w else w).
Proof.
  destruct (encodable filename) eqn:E.
  - rewrite save_unified_data_run by done. case_bool_decide as L.
    + split; [done|]. split; [done|]. done.
    + split; [done|]. split; [|done]. intros other Ho. simpl.
      by rewrite lookup_insert_ne.
  - rewrite save_unified_data_fails by done. case_bool_decide as L.
    + split; [done|]. split; [done|]. done.
    + split; [done|]. split; [|done]. intros other Ho. simpl.
      by rewrite lookup_insert_ne.
Qed.

(** ** The loops, element by element *)

Lemma run1_app l l' :
  run1 (l ++ l') =
  match run1 l with
  | (Return rs, out) =>
      match run1 l' with
      | (Return rs', out') => (Return (rs ++ rs'), out ++ out')
      | (Raise x, out') => (Raise x, out ++ out')
      end
  | (Raise x, out) => (Raise x, out)
  end.
Proof.
  induction l as [|e l IH]; simpl.
  - by destruct (run1 l') as [[rs'|x] out'].
  - destruct (missing ["timestamp"] e); [done|].
    destruct (milliseconds (field "timestamp" e)) as [ms|x]; [|done].
    destruct (missing ("device_id" :: _) e); [done|].
    rewrite IH. destruct (run1 l) as [[rs|x] out]; [|done].
    destruct (run1 l') as [[rs'|x] out']; by rewrite app_assoc.
Qed.

Lemma first_fault_app keys l l' :
  first_fault keys (l ++ l') =
  match first_fault keys l with
  | Some x => Some x
  | None => first_fault keys l'
  end.
Proof.
  induction l as [|e l IH]; simpl; [done|]. by destruct (missing keys e).
Qed.

(** X4 — a mapper works element by element: on a list made of two parts on
    which it returns, it returns the records of the first part followed by
    those of the second, and Format-A prints the lines of the first part
    followed by those of the second. *)
Theorem mappers_distribute_over_concatenation
    d1 da1 db1 d2 da2 db2 l1 l1' l2 l2' u1 u1' out1 out1' u2 u2' w :
  assoc "telemetry" d1 = Some (JList (l1 ++ l1')) ->
  assoc "telemetry" da1 = Some (JList l1) ->
  assoc "telemetry" db1 = Some (JList l1') ->
  transform_format1_to_unified (JDict da1) w = (Return u1, say out1 w) ->
  transform_format1_to_unified (JDict db1) w = (Return u1', say out1' w) ->
  assoc "sensors" d2 = Some (JList (l2 ++ l2')) ->
  assoc "sensors" da2 = Some (JList l2) ->
  assoc "sensors" db2 = Some (JList l2') ->
  fst (transform_format2_to_unified (JDict da2) w) = Return u2 ->
  fst (transform_format2_to_unified (JDict db2) w) = Return u2' ->
  transform_format1_to_unified (JDict d1) w = (Return (u1 ++ u1'), say (out1 ++ out1') w) /\
  transform_format2_to_unified (JDict d2) w = (Return (u2 ++ u2'), w).
Proof.
  intros A Aa Ab Ha Hb B Ba Bb Ka Kb. split.
  - rewrite (transform_format1_to_unified_list _ _ _ _ _ Aa) in Ha.
    rewrite (transform_format1_to_unified_list _ _ _ _ _ Ab) in Hb.
    rewrite (transform_format1_to_unified_list _ _ _ _ _ A), run1_app.
    injection Ha as Ha1 Ha2. injection Hb as Hb1 Hb2.
    apply app_inv_head in Ha2, Hb2.
    destruct (run1 l1) as [r out]. destruct (run1 l1') as [r' out'].
    simpl in *. by subst.
  - rewrite (transform_format2_to_unified_list _ _ _ Ba) in Ka.
    rewrite (transform_format2_to_unified_list _ _ _ Bb) in Kb.
    rewrite (transform_format2_to_unified_list _ _ _ B), first_fault_app.
    simpl in *.
    destruct (first_fault keys2 l2); [done|].
    destruct (first_fault keys2 l2'); [done|].
    injection Ka as <-. injection Kb as <-. by rewrite map_app.
Qed.

(** X5 — a mapper stops at the first element that makes it raise: whatever
    follows that element in the list changes neither the exception nor, for
    Format-A, the lines printed. *)
Theorem mappers_stop_at_the_first_fault d1 da1 d2 da2 l1 rest1 l2 rest2 x1 x2 w :
  assoc "telemetry" d1 = Some (JList (l1 ++ rest1)) ->
  assoc "telemetry" da1 = Some (JList l1) ->
  fst (transform_format1_to_unified (JDict da1) w) = Raise x1 ->
  assoc "sensors" d2 = Some (JList (l2 ++ rest2)) ->
  assoc "sensors" da2 = Some (JList l2) ->
  fst (transform_format2_to_unified (JDict da2) w) = Raise x2 ->
  transform_format1_to_unified (JDict d1) w = transform_format1_to_unified (JDict da1) w /\
  transform_format2_to_unified (JDict d2) w = (Raise x2, w).
Proof.
  intros A Aa Ha B Ba Ka. split.
  - rewrite (transform_format1_to_unified_list _ _ _ _ _ Aa) in Ha.
    rewrite (transform_format1_to_unified_list _ _ _ _ _ A), run1_app.
    rewrite (transform_format1_to_unified_list _ _ _ _ _ Aa).
    destruct (run1 l1) as [[rs|x] out]; [done|]. done.
  - rewrite (transform_format2_to_unified_list _ _ _ Ba) in Ka.
    rewrite (transform_format2_to_unified_list _ _ _ B), first_fault_app.
    simpl in Ka. destruct (first_fault keys2 l2); [|done]. by injection Ka as ->.
Qed.

(** ** Inputs of other shapes *)

(** X6 — when the key of a mapper holds something that is not a list, the
    mapper raises [TypeError], except for the empty string and the empty
    object, which it takes for an empty list. *)
Theorem value_under_key_must_be_a_list d1 d2 v1 v2 w :
  assoc "telemetry" d1 = Some v1 -> is_list v1 = false ->
  assoc "sensors" d2 = Some v2 -> is_list v2 = false ->
  transform_format1_to_unified (JDict d1) w =
    (if is_empty_text_or_object v1 then Return [] else Raise TypeError, w) /\
  transform_format2_to_unified (JDict d2) w =
    (if is_empty_text_or_object v2 then Return [] else Raise TypeError, w).
Proof.
  intros A1 L1 A2 L2.
  unfold transform_format1_to_unified, transform_format2_to_unified.
  rewrite !bind_run. simpl. rewrite A1, A2.
  rewrite !bool_decide_eq_true_2 by eauto. simpl.
  unfold mret, py_ret. cbv beta iota. rewrite !bind_run. split.
  - destruct v1 as [| | | |[|c s]|l|[|[k v] m]]; try discriminate; try reflexivity.
    unfold iter, chars. destruct (code_points_cons c s) as (g & gs & ->). reflexivity.
  - destruct v2 as [| | | |[|c s]|l|[|[k v] m]]; try discriminate; try reflexivity.
    unfold iter, chars. destruct (code_points_cons c s) as (g & gs & ->). reflexivity.
Qed.

(** X7 — a document that is not an object is not refused as such: a list
    or a string that does not contain the key is mapped to the empty list,
    as an object without the key would be; one that contains the key, and
    any other value, makes the mapper raise [TypeError]. *)
Theorem document_need_not_be_an_object data1 data2 w :
  is_object data1 = false -> is_object data2 = false ->
  transform_format1_to_unified data1 w = (non_object_result "telemetry" data1, w) /\
  transform_format2_to_unified data2 w = (non_object_result "sensors" data2, w).
Proof.
  intros O1 O2.
  unfold transform_format1_to_unified, transform_format2_to_unified.
  rewrite !bind_run. split.
  - destruct data1 as [| | | |s|l|m]; try discriminate; try reflexivity; simpl.
    + by destruct (is_substring "telemetry" s).
    + by destruct (existsb (is_str "telemetry") l).
  - destruct data2 as [| | | |s|l|m]; try discriminate; try reflexivity; simpl.
    + by destruct (is_substring "sensors" s).
    + by destruct (existsb (is_str "sensors") l).
Qed.

(** ** Timestamps that do not parse *)

Lemma rejected_timestamp_observed s :
  fromisoformat (replace "Z" "+00:00" s) = Raise ValueError ->
  encodable s = true ->
  milliseconds (JStr s) = Return 0 /\
  diagnostics (JStr s) = [invalid_timestamp_line (JStr s)].
Proof.
  intros H E. unfold milliseconds, diagnostics, observe.
  rewrite (rejected_timestamp_run _ _ _ _ H). unfold fallback. by rewrite E.
Qed.

Lemma rejected_timestamp_unprintable s :
  fromisoformat (replace "Z" "+00:00" s) = Raise ValueError ->
  encodable s = false ->
  milliseconds (JStr s) = Raise UnicodeEncodeError.
Proof.
  intros H E. unfold milliseconds, observe.
  rewrite (rejected_timestamp_run _ _ _ _ H). unfold fallback. by rewrite E.
Qed.

Lemma run1_prints l rs i e ln :
  fst (run1 l) = Return rs -> l !! i = Some e ->
  ln ∈ diagnostics (field "timestamp" e) -> ln ∈ snd (run1 l).
Proof.
  revert rs i. induction l as [|e' l IH]; intros rs i; [done|]. simpl.
  destruct (missing ["timestamp"] e'); [done|].
  destruct (milliseconds (field "timestamp" e')) as [ms|x]; [|done].
  destruct (missing ("device_id" :: _) e'); [done|].
  destruct (run1 l) as [[rs'|x] out] eqn:R; [|done]. simpl.
  intros _ Hi Hln. apply elem_of_app. destruct i as [|i]; simpl in Hi.
  - injection Hi as ->. by left.
  - right. by eapply IH.
Qed.

(** X8 — an element whose timestamp is a string that the parser rejects
    does not stop the Format-A mapper: its record is built with timestamp
    0, the other records are built as usual, and the diagnostic for that
    string is among the lines printed. *)
Theorem rejected_timestamp_is_recorded_as_zero d l i e s w :
  assoc "telemetry" d = Some (JList l) ->
  forallb convertible1 l = true ->
  l !! i = Some e ->
  field "timestamp" e = JStr s ->
  fromisoformat (replace "Z" "+00:00" s) = Raise ValueError ->
  exists out,
    fst (transform_format1_to_unified (JDict d) w) = Return out /\
    length out = length l /\
    out !! i = Some (record_of_format1 0 e) /\
    exists before after,
      stdout (snd (transform_format1_to_unified (JDict d) w))
      = stdout w ++ before ++ invalid_timestamp_line (JStr s) :: after.
Proof.
  intros A C Hi Hs Hr.
  rewrite (transform_format1_to_unified_list _ _ _ _ _ A). simpl.
  destruct (run1_convertible _ _ _ C) as [rs Hrs]. exists rs.
  pose proof (run1_returns _ _ _ _ Hrs) as F.
  destruct (maps1_lookup _ _ _ _ _ _ F Hi) as (ms & Hms & Hout).
  rewrite Hs in Hms.
  assert (E : encodable s = true).
  { destruct (encodable s) eqn:E; [done|].
    by rewrite (rejected_timestamp_unprintable _ Hr E) in Hms. }
  destruct (rejected_timestamp_observed _ Hr E) as [M D].
  split; [done|]. split; [symmetry; by eapply Forall2_length|]. split.
  - rewrite M in Hms. by injection Hms as <-.
  - assert (I : invalid_timestamp_line (JStr s) ∈ snd (run1 l)).
    { eapply run1_prints; [done|done|]. rewrite Hs, D. apply list_elem_of_here. }
    apply list_elem_of_split in I. destruct I as (before & after & ->).
    by exists before, after.
Qed.

(** ** What [main] leaves on disk *)

Lemma transform_format1_to_unified_run data w :
  exists r out, transform_format1_to_unified data w = (r, say out w).
Proof.
  eexists _, _. apply steady_observe, steady_transform_format1_to_unified.
Qed.

Lemma main_world w :
  exists out,
    snd (main w) = say out w \/
    exists u, snd (main w) = snd (epilogue u (say out w)).
Proof.
  rewrite main_run. cbv zeta. destruct (negb _ || negb _).
  - eexists. by left.
  - destruct (transform_format1_to_unified_run
                (loaded (files w !! "data-1.json"))
                (say (greeting w ++ proceed_lines) w)) as (r & out & ->).
    rewrite say_say. destruct r as [u1|x]; [|eexists; by left].
    rewrite transform_format2_to_unified_silent.
    destruct (fst (transform_format2_to_unified _ _)) as [u2|x]; cbv beta iota.
    + eexists. right. by eexists.
    + eexists. by left.
Qed.

(** X9 — the only file [main] can create or change is
    [output-unified.json]: every other path holds after the run what it held
    before, however the run ends. *)
Theorem main_writes_one_file_at_most w other :
  other <> "output-unified.json" ->
  files (snd (main w)) !! other = files w !! other.
Proof.
  intros Ho. destruct (main_world w) as [out [-> | [u ->]]]; [done|].
  rewrite epilogue_files. case_bool_decide; [done|].
  by rewrite lookup_insert_ne.
Qed.

Lemma verdict_stdout w :
  exists out, stdout (snd (verdict w)) = stdout w ++ tests_banner :: out.
Proof.
  unfold verdict. rewrite bind_run, print_run by reflexivity. cbv beta iota.
  match goal with
  | |- context [(?m ≫= ?k) _] => assert (R : readonly (m ≫= k))
  end.
  { pose proof (readonly_run_tests fromisoformat mktime).
    repeat first [ solve [eauto 10 with py] | apply readonly_if
                 | apply readonly_bind; [|intros ?] ]. }
  match goal with
  | |- context [(?m ≫= ?k) ?w'] => destruct (R w') as [out ->]
  end.
  exists out. rewrite !stdout_say, <- app_assoc. reflexivity.
Qed.

(** X10 — a save that fails does not stop [main]: when both mappers return
    and the output path cannot be opened, [main] prints the error of the
    save and goes on to the tests, and the disk is left as it was. *)
Theorem failed_save_does_not_stop_main w unified1 unified2 :
  truthy (loaded (files w !! "data-1.json")) = true ->
  truthy (loaded (files w !! "data-2.json")) = true ->
  fst (transform_format1_to_unified (loaded (files w !! "data-1.json")) w) = Return unified1 ->
  fst (transform_format2_to_unified (loaded (files w !! "data-2.json")) w) = Return unified2 ->
  "output-unified.json" ∈ locked w ->
  files (snd (main w)) = files w /\
  exists before after,
    stdout (snd (main w))
    = stdout w ++ before ++ save_failed_line "output-unified.json" :: tests_banner :: after.
Proof.
  intros T1 T2 H1 H2 L.
  destruct (main_proceeds _ _ _ _ _ T1 T2 H1 H2) as [out ->].
  split.
  - rewrite epilogue_files, locked_say, files_say. by rewrite bool_decide_eq_true_2.
  - unfold epilogue.
    do 2 (rewrite bind_run, print_run by reflexivity; cbv beta iota).
    rewrite bind_run, save_unified_data_run by reflexivity.
    rewrite bool_decide_eq_true_2 by done. cbv beta iota.
    match goal with
    | |- context [verdict ?w'] => destruct (verdict_stdout w') as [rest E]
    end.
    exists (out ++ [[Lit "✅ Successfully transformed ";
                     Fmt (JInt (Z.of_nat (length (unified1 ++ unified2))));
                     Lit " total records"];
                    [Lit nl; Lit "💾 Saving unified data..."]]), rest.
    etrans; [exact E|].
    rewrite !stdout_say, <- !app_assoc. reflexivity.
Qed.

(** ** Equality of records *)

Lemma json_nested_ind (P : json -> Prop) :
  P JNull -> (forall b, P (JBool b)) -> (forall n, P (JInt n)) ->
  (forall x, P (JFloat x)) -> (forall t, P (JStr t)) ->
  (forall l, Forall P l -> P (JList l)) ->
  (forall d, Forall (fun kv => P (snd kv)) d -> P (JDict d)) ->
  forall v, P v.
Proof.
  intros HN HB HI HF HS HL HD. fix IH 1. intros [|b|n|x|t|l|d].
  - exact HN.
  - apply HB.
  - apply HI.
  - apply HF.
  - apply HS.
  - apply HL. induction l as [|a l IHl]; constructor; [apply IH|exact IHl].
  - apply HD. induction d as [|[k a] d IHd]; constructor; [apply IH|exact IHd].
Qed.

Lemma float_eq_refl x : float_eq x x = true.
Proof.
  destruct x as [s|s| |s m e]; try (by destruct s); [done|].
  unfold float_eq, SFeqb. simpl.
  destruct s; rewrite Z.compare_refl, Pos.compare_cont_refl; done.
Qed.

Lemma py_eq_dict d d2 :
  py_eq (JDict d) (JDict d2) =
  (length d =? length d2)%nat && forallb (member_matches d2) d.
Proof.
  simpl. f_equal. induction d as [|[k v] d IH]; [done|].
  simpl. unfold member_matches at 1. simpl. by rewrite IH.
Qed.

Lemma py_eq_list_refl l :
  Forall (fun v => py_eq v v = true) l -> py_eq (JList l) (JList l) = true.
Proof.
  induction 1 as [|a l Ha _ IH]; [done|].
  simpl. rewrite Ha. exact IH.
Qed.

Lemma assoc_member d k v :
  NoDup (map fst d) -> (k, v) ∈ d -> assoc k d = Some v.
Proof.
  induction d as [|[k' v'] d IH]; simpl; [by intros _ ?%elem_of_nil|].
  intros [Hk Hd]%NoDup_cons [E|Hin]%elem_of_cons.
  - injection E as <- <-. by rewrite String.eqb_refl.
  - destruct (String.eqb k' k) eqn:E; [|by apply IH].
    apply String.eqb_eq in E. subst k'. destruct Hk.
    apply list_elem_of_fmap. by exists (k, v).
Qed.

Lemma py_eq_refl v : distinct_keys v = true -> py_eq v v = true.
Proof.
  induction v as [|b|n|x|t|l IH|d IH] using json_nested_ind; intros W.
  - done.
  - simpl. apply Z.eqb_refl.
  - simpl. apply Z.eqb_refl.
  - simpl. apply float_eq_refl.
  - simpl. apply String.eqb_refl.
  - apply py_eq_list_refl. simpl in W.
    induction IH as [|a l Ha _ IHl]; [done|].
    simpl in W. apply andb_true_iff in W. destruct W as [W1 W2].
    constructor; [by apply Ha|by apply IHl].
  - rewrite py_eq_dict, Nat.eqb_refl, andb_true_l. simpl in W.
    apply andb_true_iff in W. destruct W as [N W].
    apply bool_decide_eq_true in N.
    assert (A : forall k v, (k, v) ∈ d -> assoc k d = Some v)
      by (intros k v; by apply assoc_member).
    clear N. revert A. generalize d at 2 3 as d2. intros d2 A.
    induction IH as [|[k v] d Hv _ IHd]; [done|].
    simpl in W. apply andb_true_iff in W. destruct W as [W1 W2].
    simpl. rewrite IHd; [|done|intros; apply A; by apply list_elem_of_further].
    unfold member_matches. simpl. rewrite (A k v) by apply list_elem_of_here.
    simpl in Hv. by rewrite Hv.
Qed.

Lemma py_eq_same_members a e :
  same_members a e -> distinct_keys a = true -> py_eq a e = true.
Proof.
  intros (da & de & -> & -> & Hp) W.
  rewrite py_eq_dict, (Permutation_length Hp), Nat.eqb_refl. simpl.
  simpl in W. apply andb_true_iff in W. destruct W as [N W].
  apply bool_decide_eq_true in N.
  assert (Ne : NoDup (map fst de)) by (by rewrite <- Hp).
  apply forallb_forall. intros [k v] Hin%list_elem_of_In.
  unfold member_matches. simpl.
  rewrite (assoc_member de k v) by (done || by rewrite <- Hp).
  apply py_eq_refl.
  rewrite forallb_forall in W. apply (W (k, v)). by apply list_elem_of_In.
Qed.

Lemma compare_records_match i actuals expecteds w :
  Forall2 (fun a e => py_eq a e = true) actuals expecteds ->
  compare_records i actuals expecteds w = (Return true, w).
Proof.
  intros F. revert i. induction F as [|a e actuals expecteds H _ IH]; intros i; [done|].
  simpl. unfold py_ne. rewrite H. simpl. apply IH.
Qed.

(** ** The tests *)

Lemma run_tests_run w :
  run_tests w =
  let expected_data := loaded (files w !! "data-result.json") in
  let data1 := loaded (files w !! "data-1.json") in
  let data2 := loaded (files w !! "data-2.json") in
  let w1 :=
    say (load_report "data-result.json" (files w !! "data-result.json"))
      (say [[Lit "Running automated tests..."]] w) in
  if negb (truthy expected_data)
  then (Return false,
        say [[Lit "❌ Test failed: Could not load expected result file"]] w1)
  else
    let w2 :=
      say (load_report "data-1.json" (files w !! "data-1.json"))
        (say [[Lit nl; Lit "📊 Testing format 1 transformation (ISO timestamps)..."]] w1) in
    if negb (truthy data1)
    then (Return false, say [[Lit "❌ Test failed: Could not load data-1.json"]] w2)
    else
      match transform_format1_to_unified data1 w2 with
      | (Raise x, w3) => (Raise x, w3)
      | (Return unified1, w3) =>
          let w4 :=
            say (load_report "data-2.json" (files w !! "data-2.json"))
              (say [[Lit nl;
                     Lit "📊 Testing format 2 transformation (millisecond timestamps)..."]]
                 (say [[Lit "✅ Transformed "; Fmt (JInt (Z.of_nat (length unified1)));
                        Lit " records from format 1"]] w3)) in
          if negb (truthy data2)
          then (Return false, say [[Lit "❌ Test failed: Could not load data-2.json"]] w4)
          else
            match transform_format2_to_unified data2 w4 with
            | (Raise x, w5) => (Raise x, w5)
            | (Return unified2, w5) =>
                judge expected_data (unified1 ++ unified2)
                  (say [[Lit "✅ Transformed "; Fmt (JInt (Z.of_nat (length unified2)));
                         Lit " records from format 2"]] w5)
            end
      end.
Proof.
  unfold run_tests. cbv zeta.
  rewrite bind_run, print_run by reflexivity; cbv beta iota.
  rewrite bind_run, load_json_file_run by reflexivity; cbv beta iota. rewrite !files_say.
  destruct (negb (truthy (loaded (files w !! "data-result.json")))).
  { rewrite bind_run, print_run by reflexivity. reflexivity. }
  rewrite bind_run, print_run by reflexivity; cbv beta iota.
  rewrite bind_run, load_json_file_run by reflexivity; cbv beta iota. rewrite !files_say.
  destruct (negb (truthy (loaded (files w !! "data-1.json")))).
  { rewrite bind_run, print_run by reflexivity. reflexivity. }
  rewrite bind_run. unfold line.
  destruct (transform_format1_to_unified_run
              (loaded (files w !! "data-1.json"))
              (say (load_report "data-1.json" (files w !! "data-1.json"))
                 (say [[Lit nl; Lit "📊 Testing format 1 transformation (ISO timestamps)..."]]
                    (say (load_report "data-result.json" (files w !! "data-result.json"))
                       (say [[Lit "Running automated tests..."]] w)))))
    as (r & out & E).
  unfold line in E. rewrite !E. clear E.
  destruct r as [u1|x]; [|reflexivity]. cbv beta iota.
  do 2 (rewrite bind_run, print_run by reflexivity; cbv beta iota).
  rewrite bind_run, load_json_file_run by reflexivity; cbv beta iota. rewrite !files_say.
  destruct (negb (truthy (loaded (files w !! "data-2.json")))).
  { rewrite bind_run, print_run by reflexivity. reflexivity. }
  rewrite bind_run, transform_format2_to_unified_silent.
  rewrite (transform_format2_to_unified_silent _ (say _ _)).
  destruct (fst (transform_format2_to_unified _ _)) as [u2|x]; [|reflexivity].
  cbv beta iota. rewrite bind_run, print_run by reflexivity. reflexivity.
Qed.

Lemma run_tests_judged w unified1 unified2 :
  truthy (loaded (files w !! "data-result.json")) = true ->
  truthy (loaded (files w !! "data-1.json")) = true ->
  truthy (loaded (files w !! "data-2.json")) = true ->
  fst (transform_format1_to_unified (loaded (files w !! "data-1.json")) w) = Return unified1 ->
  fst (transform_format2_to_unified (loaded (files w !! "data-2.json")) w) = Return unified2 ->
  exists out,
    run_tests w =
    judge (loaded (files w !! "data-result.json")) (unified1 ++ unified2) (say out w).
Proof.
  intros T0 T1 T2 H1 H2. rewrite run_tests_run. cbv zeta.
  rewrite T0, T1, T2. simpl negb. cbv iota.
  match goal with
  | |- context [transform_format1_to_unified ?data ?w'] =>
      destruct (transform_format1_to_unified_run data w') as (r & out & E);
      rewrite (transform_format1_to_unified_result _ _ _ w w') in H1;
      rewrite E in *
  end.
  simpl in H1. subst r.
  rewrite transform_format2_to_unified_silent.
  rewrite transform_format2_to_unified_silent in H2. simpl in H2. rewrite H2.
  rewrite !say_say. by eexists.
Qed.

Lemma judge_match fixture all exp w :
  expected_records fixture = JList exp ->
  Forall2 (fun a e => py_eq a e = true) all exp ->
  judge (JDict fixture) all w = (Return true, say [tests_passed_line] w).
Proof.
  intros E F. unfold judge, call_get. cbv beta iota. rewrite ret_bind.
  fold (expected_records fixture). rewrite E. simpl len. rewrite ret_bind.
  rewrite (Forall2_length _ _ _ F), Z.eqb_refl.
  change (negb true) with false. cbv iota.
  unfold iter. rewrite ret_bind, bind_run, (compare_records_match _ _ _ _ F).
  reflexivity.
Qed.

Lemma judge_count fixture all exp w :
  expected_records fixture = JList exp ->
  length all <> length exp ->
  fst (judge (JDict fixture) all w) = Return false /\
  exists out, snd (judge (JDict fixture) all w) = say out w.
Proof.
  intros E N. unfold judge, call_get. cbv beta iota. rewrite ret_bind.
  fold (expected_records fixture). rewrite E. simpl len. rewrite ret_bind.
  destruct (Z.of_nat (length all) =? Z.of_nat (length exp)) eqn:C.
  - apply Z.eqb_eq in C. lia.
  - change (negb false) with true. cbv iota. rewrite bind_run, print_run by reflexivity.
    split; [done|]. by eexists.
Qed.

Lemma judge_fault expected_data all w x :
  fixture_fault expected_data = Some x ->
  judge expected_data all w = (Raise x, w).
Proof.
  unfold judge, fixture_fault, call_get.
  destruct expected_data as [| | | | | |fixture]; try (by intros [= <-]).
  cbv beta iota. rewrite ret_bind. fold (expected_records fixture).
  destruct (expected_records fixture); try done; by intros [= <-].
Qed.

Lemma run_tests_match w fixture expected unified1 unified2 :
  files w !! "data-result.json" = Some (Document (JDict fixture)) ->
  truthy (JDict fixture) = true ->
  expected_records fixture = JList expected ->
  truthy (loaded (files w !! "data-1.json")) = true ->
  truthy (loaded (files w !! "data-2.json")) = true ->
  fst (transform_format1_to_unified (loaded (files w !! "data-1.json")) w) = Return unified1 ->
  fst (transform_format2_to_unified (loaded (files w !! "data-2.json")) w) = Return unified2 ->
  Forall2 same_members (unified1 ++ unified2) expected ->
  forallb distinct_keys (unified1 ++ unified2) = true ->
  exists out, run_tests w = (Return true, say (out ++ [tests_passed_line]) w).
Proof.
  intros F T0 E T1 T2 H1 H2 S W.
  assert (L : loaded (files w !! "data-result.json") = JDict fixture) by by rewrite F.
  destruct (run_tests_judged w unified1 unified2) as [out ->]; rewrite ?L; try done.
  rewrite (judge_match _ _ expected); [|done|].
  - exists out. by rewrite say_say.
  - rewrite forallb_forall in W. clear -S W.
    induction S as [|a e l l' Hs _ IH]; constructor.
    + apply py_eq_same_members; [done|]. apply W. by left.
    + apply IH. intros x Hx. apply W. by right.
Qed.

(** X11 — [run_tests] passes when the fixture lists, in order, one object
    per record of the merged list with the members of that record; the
    order of the members inside an object does not matter.  It writes
    nothing, and its last line is the line of success. *)
Theorem tests_pass_on_matching_fixture w fixture expected unified1 unified2 :
  files w !! "data-result.json" = Some (Document (JDict fixture)) ->
  truthy (JDict fixture) = true ->
  expected_records fixture = JList expected ->
  truthy (loaded (files w !! "data-1.json")) = true ->
  truthy (loaded (files w !! "data-2.json")) = true ->
  fst (transform_format1_to_unified (loaded (files w !! "data-1.json")) w) = Return unified1 ->
  fst (transform_format2_to_unified (loaded (files w !! "data-2.json")) w) = Return unified2 ->
  Forall2 same_members (unified1 ++ unified2) expected ->
  forallb distinct_keys (unified1 ++ unified2) = true ->
  fst (run_tests w) = Return true /\
  files (snd (run_tests w)) = files w /\
  exists before,
    stdout (snd (run_tests w)) = stdout w ++ before ++ [tests_passed_line].
Proof.
  intros F T0 E T1 T2 H1 H2 S W.
  destruct (run_tests_match w fixture expected unified1 unified2) as [out ->]; try done.
  split; [done|]. split; [done|]. by exists out.
Qed.

(** X12 — [run_tests] answers [False], without raising and without
    writing, when the fixture file is missing, is not JSON, or holds an empty
    value, and when the fixture lists a number of records other than the
    number of merged records. *)
Theorem tests_fail_without_raising w fixture expected unified1 unified2 :
  truthy (loaded (files w !! "data-result.json")) = false \/
  (files w !! "data-result.json" = Some (Document (JDict fixture)) /\
   truthy (JDict fixture) = true /\
   expected_records fixture = JList expected /\
   truthy (loaded (files w !! "data-1.json")) = true /\
   truthy (loaded (files w !! "data-2.json")) = true /\
   fst (transform_format1_to_unified (loaded (files w !! "data-1.json")) w)
   = Return unified1 /\
   fst (transform_format2_to_unified (loaded (files w !! "data-2.json")) w)
   = Return unified2 /\
   length expected <> length (unified1 ++ unified2)) ->
  fst (run_tests w) = Return false /\ files (snd (run_tests w)) = files w.
Proof.
  intros [T0 | (F & T0 & E & T1 & T2 & H1 & H2 & N)].
  - rewrite run_tests_run. cbv zeta. by rewrite T0.
  - assert (L : loaded (files w !! "data-result.json") = JDict fixture) by by rewrite F.
    destruct (run_tests_judged w unified1 unified2) as [out ->]; rewrite ?L; try done.
    destruct (judge_count fixture (unified1 ++ unified2) expected (say out w))
      as (R & out' & W'); [done|done|].
    by rewrite R, W'.
Qed.

(** X13 — a fixture of the wrong shape makes [run_tests] raise once both
    mappers have returned: [AttributeError] when it is not an object,
    [TypeError] when its [unified_telemetry] is [null], a boolean or a
    number. *)
Theorem fixture_of_wrong_shape_raises w x unified1 unified2 :
  fixture_fault (loaded (files w !! "data-result.json")) = Some x ->
  truthy (loaded (files w !! "data-result.json")) = true ->
  truthy (loaded (files w !! "data-1.json")) = true ->
  truthy (loaded (files w !! "data-2.json")) = true ->
  fst (transform_format1_to_unified (loaded (files w !! "data-1.json")) w) = Return unified1 ->
  fst (transform_format2_to_unified (loaded (files w !! "data-2.json")) w) = Return unified2 ->
  fst (run_tests w) = Raise x /\ files (snd (run_tests w)) = files w.
Proof.
  intros X T0 T1 T2 H1 H2.
  destruct (run_tests_judged w unified1 unified2) as [out ->]; try done.
  by rewrite (judge_fault _ _ _ x).
Qed.

Lemma compare_records_mismatch n : forall i actuals expecteds a e w,
  actuals !! n = Some a -> expecteds !! n = Some e ->
  py_eq a e = false ->
  Forall2 (fun a e => py_eq a e = true) (take n actuals) (take n expecteds) ->
  printable_piece (Fmt a) = true ->
  compare_records i actuals expecteds w
  = if printable_piece (Fmt e)
    then (Return false, say (mismatch_lines (i + Z.of_nat n + 1) e a) w)
    else (Raise UnicodeEncodeError,
          say (take 1 (mismatch_lines (i + Z.of_nat n + 1) e a)) w).
Proof.
  induction n as [|n IH]; intros i [|a0 actuals] [|e0 expecteds] a e w Ha He N F Pa;
    try discriminate; simpl in Ha, He.
  - injection Ha as ->. injection He as ->. simpl compare_records.
    unfold py_ne. rewrite N. change (negb false) with true. cbv iota.
    replace (i + Z.of_nat 0 + 1) with (i + 1) by lia.
    rewrite bind_run, print_run by reflexivity. cbv beta iota.
    rewrite bind_run. destruct (printable_piece (Fmt e)) eqn:Pe.
    + rewrite print_run by (simpl; simpl in Pe; by rewrite Pe).
      cbv beta iota. rewrite bind_run.
      rewrite print_run by (simpl; simpl in Pa; by rewrite Pa).
      cbv beta iota. unfold mret, py_ret. by rewrite !say_say.
    + rewrite print_fails by (simpl; simpl in Pe; by rewrite Pe). done.
  - simpl in F. apply Forall2_cons in F. destruct F as [F0 F].
    simpl. unfold py_ne. rewrite F0. change (negb true) with false. cbv iota.
    rewrite (IH (i + 1) actuals expecteds a e w Ha He N F Pa).
    by replace (i + 1 + Z.of_nat n + 1) with (i + Z.of_nat (S n) + 1) by lia.
Qed.

Lemma judge_mismatch fixture all exp n a e w :
  expected_records fixture = JList exp ->
  length all = length exp ->
  all !! n = Some a -> exp !! n = Some e ->
  py_eq a e = false ->
  Forall2 (fun a e => py_eq a e = true) (take n all) (take n exp) ->
  printable_piece (Fmt a) = true ->
  judge (JDict fixture) all w
  = if printable_piece (Fmt e)
    then (Return false, say (mismatch_lines (Z.of_nat n + 1) e a) w)
    else (Raise UnicodeEncodeError,
          say (take 1 (mismatch_lines (Z.of_nat n + 1) e a)) w).
Proof.
  intros E L Ha He N F Pa. unfold judge, call_get. cbv beta iota. rewrite ret_bind.
  fold (expected_records fixture). rewrite E. simpl len. rewrite ret_bind.
  rewrite L, Z.eqb_refl. change (negb true) with false. cbv iota.
  unfold iter. rewrite ret_bind, bind_run.
  rewrite (compare_records_mismatch n 0 all exp a e w Ha He N F Pa).
  by destruct (printable_piece (Fmt e)).
Qed.

(** A record of a mapper is an object, which [print] shows through its
    [repr]. *)
Lemma records_are_printable data1 data2 w unified1 unified2 a :
  fst (transform_format1_to_unified data1 w) = Return unified1 ->
  fst (transform_format2_to_unified data2 w) = Return unified2 ->
  a ∈ unified1 ++ unified2 -> printable_piece (Fmt a) = true.
Proof.
  intros H1 H2 [Ha|Ha]%elem_of_app.
  - destruct (transform_format1_to_unified_returns _ _ _ _ _ H1) as (es & F & _).
    destruct (proj1 (list_elem_of_lookup _ _) Ha) as [i Hi].
    destruct (Forall2_lookup_r _ _ _ _ _ F Hi) as (e & _ & _ & ms & _ & ->). done.
  - destruct (transform_format2_to_unified_returns _ _ _ H2) as (es & -> & _).
    apply list_elem_of_fmap in Ha. by destruct Ha as (e & -> & _).
Qed.

(** X15 — when the fixture lists as many records as were merged and some
    record differs from the fixture's, [run_tests] reports the first such
    record only, numbered from one, then the expected and the actual
    record, and answers [False]; it writes nothing.  The expected value is
    printed as it is when it is a string: if standard output cannot encode
    it, [run_tests] raises once the first of the three lines is out. *)
Theorem tests_report_the_first_mismatch w fixture expected unified1 unified2 n a e :
  files w !! "data-result.json" = Some (Document (JDict fixture)) ->
  truthy (JDict fixture) = true ->
  expected_records fixture = JList expected ->
  truthy (loaded (files w !! "data-1.json")) = true ->
  truthy (loaded (files w !! "data-2.json")) = true ->
  fst (transform_format1_to_unified (loaded (files w !! "data-1.json")) w) = Return unified1 ->
  fst (transform_format2_to_unified (loaded (files w !! "data-2.json")) w) = Return unified2 ->
  length (unified1 ++ unified2) = length expected ->
  (unified1 ++ unified2) !! n = Some a ->
  expected !! n = Some e ->
  py_eq a e = false ->
  Forall2 (fun a e => py_eq a e = true)
    (take n (unified1 ++ unified2)) (take n expected) ->
  fst (run_tests w)
  = (if printable_piece (Fmt e) then Return false else Raise UnicodeEncodeError) /\
  files (snd (run_tests w)) = files w /\
  exists before,
    stdout (snd (run_tests w))
    = stdout w ++ before
      ++ (if printable_piece (Fmt e) then mismatch_lines (Z.of_nat n + 1) e a
          else take 1 (mismatch_lines (Z.of_nat n + 1) e a)).
Proof.
  intros F T0 E T1 T2 H1 H2 L Ha He N P.
  assert (D : loaded (files w !! "data-result.json") = JDict fixture) by by rewrite F.
  assert (Pa : printable_piece (Fmt a) = true).
  { eapply records_are_printable; [exact H1|exact H2|]. by eapply list_elem_of_lookup_2. }
  destruct (run_tests_judged w unified1 unified2) as [out ->]; rewrite ?D; try done.
  rewrite (judge_mismatch fixture _ expected n a e _ E L Ha He N P Pa).
  destruct (printable_piece (Fmt e)).
  - split; [done|]. split; [done|]. exists out.
    cbn [snd]. by rewrite say_say, stdout_say, app_assoc.
  - split; [done|]. split; [done|]. exists out.
    cbn [snd]. by rewrite say_say, stdout_say, app_assoc.
Qed.

(** ** The exception that cannot escape *)

Lemma bind_never {A B : Type} (m : py A) (k : A -> py B) x w :
  fst (m w) <> Raise x ->
  (forall a w', fst (k a w') <> Raise x) ->
  fst ((m ≫= k) w) <> Raise x.
Proof.
  intros Hm Hk. rewrite bind_run. destruct (m w) as [[a|y] w']; [apply Hk|].
  simpl in *. congruence.
Qed.

Lemma getitem_never v key w : fst (getitem v key w) <> Raise ValueError.
Proof. destruct v as [| | | | | |d]; try done. simpl. by destruct (assoc key d). Qed.

Lemma iso_to_milliseconds_never v w :
  fst (iso_to_milliseconds v w) <> Raise ValueError.
Proof.
  unfold iso_to_milliseconds, try_except_ValueError.
  match goal with
  | |- context [match ?body w with _ => _ end] => destruct (body w) as [[z|e] w']
  end; [done|].
  destruct (is_value_error e) eqn:E; [|intros [= ->]; discriminate E].
  rewrite bind_run. unfold print. by destruct (printable _).
Qed.

Lemma iso_to_milliseconds_encode_error v w :
  fst (iso_to_milliseconds v w) = Raise UnicodeEncodeError ->
  exists s, v = JStr s /\ encodable s = false.
Proof.
  destruct v as [| | | |s| |]; try discriminate.
  rewrite iso_to_milliseconds_str.
  destruct (convert _ w) as [[z|e] w']; [discriminate|].
  destruct (is_value_error e) eqn:E; [|intros [= ->]; discriminate E].
  unfold fallback. destruct (encodable s) eqn:Es; [discriminate|]. by exists s.
Qed.

Lemma format1_loop_never l : forall acc w,
  fst (format1_loop l acc w) <> Raise ValueError.
Proof.
  induction l as [|e l IH]; intros acc w; [done|]. simpl.
  apply bind_never; [apply getitem_never|]. intros ts w1.
  apply bind_never; [apply iso_to_milliseconds_never|]. intros ms w2.
  do 4 (apply bind_never; [apply getitem_never|]; intros ? ?).
  apply IH.
Qed.

(** X18 — [ValueError] never escapes: whatever the parser and the host's
    clock conversion answer, and whatever the value handed over, the
    normalizer does not raise [ValueError], and neither does the Format-A
    mapper, on any document.  Of its subclasses one can escape the
    normalizer, and from one place only: [UnicodeEncodeError], when the
    diagnostic quotes a string that standard output cannot encode. *)
Theorem value_error_never_escapes v data w :
  fst (iso_to_milliseconds v w) <> Raise ValueError /\
  fst (transform_format1_to_unified data w) <> Raise ValueError /\
  (fst (iso_to_milliseconds v w) = Raise UnicodeEncodeError ->
   exists s, v = JStr s /\ encodable s = false).
Proof.
  split; [apply iso_to_milliseconds_never|].
  split; [|apply iso_to_milliseconds_encode_error].
  unfold transform_format1_to_unified.
  apply bind_never. { by destruct data. }
  intros present w1. destruct present; simpl; [|done].
  apply bind_never; [apply getitem_never|]. intros t w2.
  apply bind_never. { by destruct t. }
  intros entries w3. apply format1_loop_never.
Qed.

(** ** What a run depends on *)

Lemma steady_judge expected_data all : steady (judge expected_data all).
Proof.
  unfold judge. pose proof steady_compare_records. eauto 12 with py.
Qed.

Lemma run_tests_reads w w' :
  files w !! "data-result.json" = files w' !! "data-result.json" ->
  files w !! "data-1.json" = files w' !! "data-1.json" ->
  files w !! "data-2.json" = files w' !! "data-2.json" ->
  exists r out, run_tests w = (r, say out w) /\ run_tests w' = (r, say out w').
Proof.
  intros H0 H1 H2. rewrite !run_tests_run. cbv zeta. rewrite <- H0, <- H1, <- H2.
  destruct (negb (truthy (loaded (files w !! "data-result.json")))).
  { rewrite !say_say. by eexists _, _. }
  destruct (negb (truthy (loaded (files w !! "data-1.json")))).
  { rewrite !say_say. by eexists _, _. }
  destruct (steady_transform_format1_to_unified fromisoformat mktime
              (loaded (files w !! "data-1.json"))) as (r1 & out1 & E1).
  rewrite !E1, !say_say. destruct r1 as [u1|x]; [|by eexists _, _].
  destruct (negb (truthy (loaded (files w !! "data-2.json")))).
  { rewrite !say_say. by eexists _, _. }
  destruct (steady_transform_format2_to_unified
              (loaded (files w !! "data-2.json"))) as (r2 & out2 & E2).
  rewrite !E2, !say_say. destruct r2 as [u2|x]; [|by eexists _, _].
  destruct (steady_judge (loaded (files w !! "data-result.json")) (u1 ++ u2))
    as (r & out & E).
  rewrite !E, !say_say. by eexists _, _.
Qed.

(** X16 — [run_tests] reads [data-result.json], [data-1.json] and
    [data-2.json] and nothing else: on two disks that agree on these three
    files it returns the same and prints the same lines.  In particular it
    never looks at [output-unified.json]: the file [main] has saved is not
    what is tested. *)
Theorem tests_read_the_inputs_only w w' :
  files w !! "data-result.json" = files w' !! "data-result.json" ->
  files w !! "data-1.json" = files w' !! "data-1.json" ->
  files w !! "data-2.json" = files w' !! "data-2.json" ->
  fst (run_tests w) = fst (run_tests w') /\
  exists out,
    stdout (snd (run_tests w)) = stdout w ++ out /\
    stdout (snd (run_tests w')) = stdout w' ++ out.
Proof.
  intros H0 H1 H2.
  destruct (run_tests_reads w w' H0 H1 H2) as (r & out & -> & ->).
  split; [done|]. by exists out.
Qed.

Lemma verdict_reads w w' :
  files w !! "data-result.json" = files w' !! "data-result.json" ->
  files w !! "data-1.json" = files w' !! "data-1.json" ->
  files w !! "data-2.json" = files w' !! "data-2.json" ->
  fst (verdict w) = fst (verdict w').
Proof.
  intros H0 H1 H2. unfold verdict.
  rewrite !bind_run, !print_run by reflexivity. cbv beta iota. rewrite !bind_run.
  match goal with
  | |- context [run_tests (say ?out w)] =>
      destruct (run_tests_reads (say out w) (say out w')) as (r & out' & -> & ->);
      rewrite ?files_say; try done
  end.
  by destruct r as [[]|x].
Qed.

Lemma epilogue_reads u w w' :
  files w !! "data-result.json" = files w' !! "data-result.json" ->
  files w !! "data-1.json" = files w' !! "data-1.json" ->
  files w !! "data-2.json" = files w' !! "data-2.json" ->
  locked w = locked w' ->
  fst (epilogue u w) = fst (epilogue u w').
Proof.
  intros H0 H1 H2 L. unfold epilogue.
  rewrite !bind_run, !print_run by reflexivity. cbv beta iota. rewrite !bind_run, !print_run by reflexivity.
  cbv beta iota. rewrite !bind_run, !save_unified_data_run by reflexivity.
  rewrite !locked_say, <- L.
  case_bool_decide; cbv beta iota;
    apply verdict_reads; rewrite ?files_say; cbn [files];
    rewrite ?lookup_insert_ne by done; by rewrite ?files_say.
Qed.

Lemma epilogue_locked u w : locked (snd (epilogue u w)) = locked w.
Proof.
  unfold epilogue.
  do 2 (rewrite bind_run, print_run by reflexivity; cbv beta iota).
  rewrite bind_run, save_unified_data_run by reflexivity. simpl locked.
  case_bool_decide; cbv beta iota;
    match goal with
    | |- context [verdict ?w'] =>
        destruct (readonly_verdict fromisoformat mktime w') as [out ->]
    end; done.
Qed.

(** What [main] leaves at the output path: nothing new, or the merged list. *)
Lemma main_reads w w' :
  files w !! "data-result.json" = files w' !! "data-result.json" ->
  files w !! "data-1.json" = files w' !! "data-1.json" ->
  files w !! "data-2.json" = files w' !! "data-2.json" ->
  locked w = locked w' ->
  fst (main w) = fst (main w') /\
  ((files (snd (main w)) = files w /\ files (snd (main w')) = files w') \/
   exists u,
     files (snd (main w)) = <["output-unified.json" := output_document u]> (files w) /\
     files (snd (main w')) = <["output-unified.json" := output_document u]> (files w')).
Proof.
  intros H0 H1 H2 L. rewrite !main_run. cbv zeta. unfold greeting.
  rewrite <- H1, <- H2.
  destruct (negb _ || negb _); [split; [done|by left]|].
  destruct (steady_transform_format1_to_unified fromisoformat mktime
              (loaded (files w !! "data-1.json"))) as (r1 & out1 & E1).
  rewrite !E1, !say_say. destruct r1 as [u1|x]; [|split; [done|by left]].
  destruct (steady_transform_format2_to_unified
              (loaded (files w !! "data-2.json"))) as (r2 & out2 & E2).
  rewrite !E2, !say_say. destruct r2 as [u2|x]; [|split; [done|by left]].
  split.
  - apply epilogue_reads; by rewrite ?files_say, ?locked_say.
  - rewrite !epilogue_files, !locked_say, !files_say, <- L.
    case_bool_decide; [by left|right]. by exists (u1 ++ u2).
Qed.

(** X17 — running [main] a second time changes nothing more: the second
    run ends as the first did, returning or raising the same, and leaves the
    disk as the first run left it. *)
Theorem main_twice w :
  fst (main (snd (main w))) = fst (main w) /\
  files (snd (main (snd (main w)))) = files (snd (main w)).
Proof.
  assert (K : locked (snd (main w)) = locked w /\
              forall name, name <> "output-unified.json" ->
                files (snd (main w)) !! name = files w !! name).
  { destruct (main_world w) as [out [-> | [u ->]]]; [done|].
    rewrite epilogue_locked, epilogue_files, locked_say, files_say.
    split; [done|]. intros name Hn. case_bool_decide; [done|].
    by rewrite lookup_insert_ne. }
  destruct K as [L K].
  destruct (main_reads w (snd (main w))) as [R [[F F']|(u & F & F')]];
    try (symmetry; (done || by apply K)).
  - split; [done|]. by rewrite F'.
  - split; [done|]. rewrite F', F. apply insert_insert_eq.
Qed.

(** ** A whole run *)

(** X14 — a whole run that succeeds: with documents on which both mappers
    return, a fixture that lists their records, and an output path that can
    be opened, [main] returns, [output-unified.json] holds the merged list
    and nothing else on disk has changed, and the last line printed is the
    line of success. *)
Theorem main_succeeds w fixture expected unified1 unified2 :
  files w !! "data-result.json" = Some (Document (JDict fixture)) ->
  truthy (JDict fixture) = true ->
  expected_records fixture = JList expected ->
  truthy (loaded (files w !! "data-1.json")) = true ->
  truthy (loaded (files w !! "data-2.json")) = true ->
  fst (transform_format1_to_unified (loaded (files w !! "data-1.json")) w) = Return unified1 ->
  fst (transform_format2_to_unified (loaded (files w !! "data-2.json")) w) = Return unified2 ->
  Forall2 same_members (unified1 ++ unified2) expected ->
  forallb distinct_keys (unified1 ++ unified2) = true ->
  "output-unified.json" ∉ locked w ->
  fst (main w) = Return tt /\
  files (snd (main w))
  = <["output-unified.json" := output_document (unified1 ++ unified2)]> (files w) /\
  exists before, stdout (snd (main w)) = stdout w ++ before ++ [success_line].
Proof.
  intros F T0 E T1 T2 H1 H2 S W L.
  destruct (main_proceeds _ _ _ _ _ T1 T2 H1 H2) as [out ->].
  unfold epilogue.
  do 2 (rewrite bind_run, print_run by reflexivity; cbv beta iota).
  rewrite bind_run, save_unified_data_run by reflexivity.
  rewrite bool_decide_eq_false_2 by done. cbv beta iota.
  unfold verdict. rewrite bind_run, print_run by reflexivity. cbv beta iota. rewrite bind_run.
  match goal with
  | |- context [run_tests ?w'] =>
      destruct (run_tests_match w' fixture expected unified1 unified2) as [out' ->]
  end; try done.
  - simpl files. by rewrite lookup_insert_ne.
  - simpl files. by rewrite lookup_insert_ne.
  - simpl files. by rewrite lookup_insert_ne.
  - simpl files. rewrite lookup_insert_ne by done.
    by rewrite (transform_format1_to_unified_result _ _ _ _ w).
  - simpl files. rewrite lookup_insert_ne by done.
    rewrite transform_format2_to_unified_silent.
    by rewrite transform_format2_to_unified_silent in H2.
  - cbv beta iota. rewrite print_run by reflexivity. split; [done|]. split; [done|].
    exists (out ++ [[Lit "✅ Successfully transformed ";
                     Fmt (JInt (Z.of_nat (length (unified1 ++ unified2))));
                     Lit " total records"];
                    [Lit nl; Lit "💾 Saving unified data..."];
                    saved_line "output-unified.json"; tests_banner] ++ out'
            ++ [tests_passed_line]).
    cbn [snd]. rewrite !stdout_say. cbn [stdout].
    rewrite ?stdout_say, <- !app_assoc. reflexivity.
Qed.

End Further.

(** X19 — a timestamp that carries an offset, or a [Z], is converted
    without asking the host for its time zone: the normalizer returns and
    prints the same whatever [mktime] would answer. *)
Theorem aware_timestamp_ignores_the_host_zone
    (fromisoformat : string -> outcome datetime)
    (mktime mktime' : datetime -> outcome Z) s dt off w :
  fromisoformat (replace "Z" "+00:00" s) = Return dt ->
  utcoffset dt = Some off ->
  iso_to_milliseconds fromisoformat mktime (JStr s) w
  = iso_to_milliseconds fromisoformat mktime' (JStr s) w.
Proof.
  intros P O. rewrite !iso_to_milliseconds_str. unfold convert.
  rewrite !bind_run. unfold lift at 1 3. rewrite P. cbv beta iota.
  rewrite !bind_run. unfold timestamp. by rewrite O.
Qed.

(** ** The further properties on sample inputs *)

#[local] Abbreviation run_tests_ref := (run_tests Reference.fromisoformat Reference.mktime).

Lemma locked_output : "output-unified.json" ∈ locked Fixture.start_locked.
Proof.
  change ("output-unified.json" ∈ ({["output-unified.json"]} : gset string)).
  apply elem_of_singleton_2. reflexivity.
Defined.

Lemma fixture_matches :
  Forall2 same_members ([Fixture.record1] ++ [Fixture.record2]) Fixture.expected.
Proof.
  repeat constructor.
  - eexists _, _. split; [reflexivity|]. split; [reflexivity|]. reflexivity.
  - eexists _, _. split; [reflexivity|]. split; [reflexivity|]. apply perm_swap.
Defined.

Lemma every_z_is_rewritten_witness :
  is_substring "Z" "2023-10-15T14:30:25.123+00:00" = false /\
  iso_to_milliseconds Reference.fromisoformat Reference.mktime
    (JStr "2023-10-15T14:30:25.123+00:00") empty_world =
  match convert Reference.fromisoformat Reference.mktime
          "2023-10-15T14:30:25.123+00:00" empty_world with
  | (Raise ValueError, w') =>
      (Return 0, say [invalid_timestamp_line (JStr "2023-10-15T14:30:25.123+00:00")] w')
  | r => r
  end.
Proof.
  split; [reflexivity|].
  apply (every_z_is_rewritten Reference.fromisoformat Reference.mktime
           "2023-10-15T14:30:25.123+00:00" empty_world).
  reflexivity.
Defined.

Lemma saved_list_is_read_back_witness :
  ("output-unified.json" ∉ locked Sample.start) /\
  fst (load_json_file "output-unified.json"
         (snd (save_unified_data [Fixture.record1] "output-unified.json" Sample.start)))
  = Return (JDict [("unified_telemetry", JList [Fixture.record1])]).
Proof.
  split; [apply not_elem_of_empty|].
  apply (saved_list_is_read_back [Fixture.record1] "output-unified.json" Sample.start).
  apply not_elem_of_empty.
Defined.

Lemma save_raises_only_on_unprintable_path_witness :
  "output-unified.json" ∈ locked Fixture.start_locked /\
  snd (save_unified_data [Fixture.record1] "output-unified.json" Fixture.start_locked)
  = say [save_failed_line "output-unified.json"] Fixture.start_locked.
Proof.
  split; [exact locked_output|].
  apply (save_raises_only_on_unprintable_path [Fixture.record1] "output-unified.json" Fixture.start_locked).
  exact locked_output.
Defined.

Lemma mappers_distribute_over_concatenation_witness :
  run_format1 (JDict [("telemetry", JList ([Fixture.undated] ++ [Sample.entry1]))])
    empty_world
  = (Return ([record_of_format1 0 Fixture.undated] ++ [Fixture.record1]),
     say ([invalid_timestamp_line (JStr "next Tuesday")] ++ []) empty_world) /\
  transform_format2_to_unified
    (JDict [("sensors", JList ([Sample.entry2] ++ [Sample.entry2]))]) empty_world
  = (Return ([Fixture.record2] ++ [Fixture.record2]), empty_world).
Proof.
  apply (mappers_distribute_over_concatenation Reference.fromisoformat Reference.mktime
           [("telemetry", JList ([Fixture.undated] ++ [Sample.entry1]))]
           [("telemetry", JList [Fixture.undated])]
           [("telemetry", JList [Sample.entry1])]
           [("sensors", JList ([Sample.entry2] ++ [Sample.entry2]))]
           [("sensors", JList [Sample.entry2])]
           [("sensors", JList [Sample.entry2])]
           [Fixture.undated] [Sample.entry1] [Sample.entry2] [Sample.entry2]);
    vm_compute; reflexivity.
Defined.

Lemma mappers_stop_at_the_first_fault_witness :
  run_format1 (JDict [("telemetry", JList ([Sample.only_timestamp] ++ [Sample.entry1]))])
    empty_world
  = run_format1 (JDict [("telemetry", JList [Sample.only_timestamp])]) empty_world /\
  transform_format2_to_unified
    (JDict [("sensors", JList ([Fixture.only_id] ++ [Sample.entry2]))]) empty_world
  = (Raise (KeyError "ts"), empty_world).
Proof.
  apply (mappers_stop_at_the_first_fault Reference.fromisoformat Reference.mktime
           [("telemetry", JList ([Sample.only_timestamp] ++ [Sample.entry1]))]
           [("telemetry", JList [Sample.only_timestamp])]
           [("sensors", JList ([Fixture.only_id] ++ [Sample.entry2]))]
           [("sensors", JList [Fixture.only_id])]
           [Sample.only_timestamp] [Sample.entry1] [Fixture.only_id] [Sample.entry2]
           AttributeError (KeyError "ts"));
    vm_compute; reflexivity.
Defined.

Lemma value_under_key_must_be_a_list_witness :
  run_format1 (JDict [("telemetry", JInt 3)]) empty_world = (Raise TypeError, empty_world) /\
  transform_format2_to_unified (JDict [("sensors", JStr EmptyString)]) empty_world
  = (Return [], empty_world).
Proof.
  apply (value_under_key_must_be_a_list Reference.fromisoformat Reference.mktime
           [("telemetry", JInt 3)] [("sensors", JStr EmptyString)]
           (JInt 3) (JStr EmptyString) empty_world);
    reflexivity.
Defined.

Lemma document_need_not_be_an_object_witness :
  run_format1 (JList [JInt 1]) empty_world = (Return [], empty_world) /\
  transform_format2_to_unified (JStr "my sensors") empty_world
  = (Raise TypeError, empty_world).
Proof.
  apply (document_need_not_be_an_object Reference.fromisoformat Reference.mktime
           (JList [JInt 1]) (JStr "my sensors") empty_world); reflexivity.
Defined.

Lemma rejected_timestamp_is_recorded_as_zero_witness :
  exists out,
    fst (run_format1 (JDict [("telemetry", JList [Sample.entry1; Fixture.undated])])
           empty_world) = Return out /\
    length out = length [Sample.entry1; Fixture.undated] /\
    out !! 1%nat = Some (record_of_format1 0 Fixture.undated) /\
    exists before after,
      stdout (snd (run_format1
                     (JDict [("telemetry", JList [Sample.entry1; Fixture.undated])])
                     empty_world))
      = stdout empty_world ++ before
        ++ invalid_timestamp_line (JStr "next Tuesday") :: after.
Proof.
  apply (rejected_timestamp_is_recorded_as_zero Reference.fromisoformat Reference.mktime
           [("telemetry", JList [Sample.entry1; Fixture.undated])]
           [Sample.entry1; Fixture.undated] 1%nat Fixture.undated "next Tuesday"
           empty_world).
  - reflexivity.
  - vm_compute; reflexivity.
  - reflexivity.
  - reflexivity.
  - vm_compute; reflexivity.
Defined.

Lemma main_writes_one_file_at_most_witness :
  files (snd (run_main Fixture.start)) !! "data-1.json"
  = files Fixture.start !! "data-1.json".
Proof.
  apply (main_writes_one_file_at_most Reference.fromisoformat Reference.mktime
           Fixture.start "data-1.json").
  discriminate.
Defined.

Lemma failed_save_does_not_stop_main_witness :
  "output-unified.json" ∈ locked Fixture.start_locked /\
  files (snd (run_main Fixture.start_locked)) = files Fixture.start_locked /\
  exists before after,
    stdout (snd (run_main Fixture.start_locked))
    = stdout Fixture.start_locked ++ before
      ++ save_failed_line "output-unified.json" :: tests_banner :: after.
Proof.
  split; [exact locked_output|].
  apply (failed_save_does_not_stop_main Reference.fromisoformat Reference.mktime
           Fixture.start_locked [Fixture.record1] [Fixture.record2]).
  - reflexivity.
  - reflexivity.
  - vm_compute; reflexivity.
  - vm_compute; reflexivity.
  - exact locked_output.
Defined.

Lemma tests_pass_on_matching_fixture_witness :
  fst (run_tests_ref Fixture.start) = Return true /\
  files (snd (run_tests_ref Fixture.start)) = files Fixture.start /\
  exists before,
    stdout (snd (run_tests_ref Fixture.start))
    = stdout Fixture.start ++ before ++ [tests_passed_line].
Proof.
  apply (tests_pass_on_matching_fixture Reference.fromisoformat Reference.mktime
           Fixture.start Fixture.members Fixture.expected
           [Fixture.record1] [Fixture.record2]).
  - reflexivity.
  - reflexivity.
  - reflexivity.
  - reflexivity.
  - reflexivity.
  - vm_compute; reflexivity.
  - vm_compute; reflexivity.
  - exact fixture_matches.
  - vm_compute; reflexivity.
Defined.

Lemma tests_fail_without_raising_witness :
  truthy (loaded (files Sample.start !! "data-result.json")) = false /\
  fst (run_tests_ref Sample.start) = Return false /\
  files (snd (run_tests_ref Sample.start)) = files Sample.start.
Proof.
  split; [reflexivity|].
  apply (tests_fail_without_raising Reference.fromisoformat Reference.mktime
           Sample.start [] [] [] []).
  left. reflexivity.
Defined.

Lemma fixture_of_wrong_shape_raises_witness :
  fst (run_tests_ref Fixture.start_list_fixture) = Raise AttributeError /\
  files (snd (run_tests_ref Fixture.start_list_fixture)) = files Fixture.start_list_fixture.
Proof.
  apply (fixture_of_wrong_shape_raises Reference.fromisoformat Reference.mktime
           Fixture.start_list_fixture AttributeError [Fixture.record1] [Fixture.record2]).
  - reflexivity.
  - reflexivity.
  - reflexivity.
  - reflexivity.
  - vm_compute; reflexivity.
  - vm_compute; reflexivity.
Defined.

Lemma main_succeeds_witness :
  fst (run_main Fixture.start) = Return tt /\
  files (snd (run_main Fixture.start))
  = <["output-unified.json" := output_document ([Fixture.record1] ++ [Fixture.record2])]>
      (files Fixture.start) /\
  exists before,
    stdout (snd (run_main Fixture.start)) = stdout Fixture.start ++ before ++ [success_line].
Proof.
  apply (main_succeeds Reference.fromisoformat Reference.mktime
           Fixture.start Fixture.members Fixture.expected
           [Fixture.record1] [Fixture.record2]).
  - reflexivity.
  - reflexivity.
  - reflexivity.
  - reflexivity.
  - reflexivity.
  - vm_compute; reflexivity.
  - vm_compute; reflexivity.
  - exact fixture_matches.
  - vm_compute; reflexivity.
  - apply not_elem_of_empty.
Defined.

Lemma tests_report_the_first_mismatch_witness :
  fst (run_tests_ref Fixture.start_other) = Return false /\
  files (snd (run_tests_ref Fixture.start_other)) = files Fixture.start_other /\
  exists before,
    stdout (snd (run_tests_ref Fixture.start_other))
    = stdout Fixture.start_other ++ before
      ++ mismatch_lines 2 Fixture.record2_other Fixture.record2.
Proof.
  apply (tests_report_the_first_mismatch Reference.fromisoformat Reference.mktime
           Fixture.start_other Fixture.members_other
           [Fixture.record1; Fixture.record2_other]
           [Fixture.record1] [Fixture.record2] 1%nat
           Fixture.record2 Fixture.record2_other).
  - reflexivity.
  - reflexivity.
  - reflexivity.
  - reflexivity.
  - reflexivity.
  - vm_compute; reflexivity.
  - vm_compute; reflexivity.
  - reflexivity.
  - reflexivity.
  - reflexivity.
  - vm_compute; reflexivity.
  - repeat constructor.
Defined.

Lemma tests_read_the_inputs_only_witness :
  fst (run_tests_ref Fixture.start) = fst (run_tests_ref Fixture.start_stale) /\
  exists out,
    stdout (snd (run_tests_ref Fixture.start)) = stdout Fixture.start ++ out /\
    stdout (snd (run_tests_ref Fixture.start_stale)) = stdout Fixture.start_stale ++ out.
Proof.
  apply (tests_read_the_inputs_only Reference.fromisoformat Reference.mktime
           Fixture.start Fixture.start_stale); vm_compute; reflexivity.
Defined.

Lemma aware_timestamp_ignores_the_host_zone_witness :
  iso_to_milliseconds Reference.fromisoformat Reference.mktime
    (JStr "2023-10-15T14:30:25.123Z") empty_world
  = iso_to_milliseconds Reference.fromisoformat (fun _ => Raise OverflowError)
      (JStr "2023-10-15T14:30:25.123Z") empty_world.
Proof.
  eapply (aware_timestamp_ignores_the_host_zone Reference.fromisoformat
            Reference.mktime (fun _ => Raise OverflowError)
            "2023-10-15T14:30:25.123Z" _ 0 empty_world).
  - vm_compute; reflexivity.
  - reflexivity.
Defined.

Lemma value_error_never_escapes_witness :
  fst (Reference.normalize Sample.lone_surrogate empty_world) = Raise UnicodeEncodeError /\
  exists s, JStr Sample.lone_surrogate = JStr s /\ encodable s = false.
Proof.
  assert (H : fst (Reference.normalize Sample.lone_surrogate empty_world)
              = Raise UnicodeEncodeError) by (vm_compute; reflexivity).
  split; [exact H|].
  apply (value_error_never_escapes Reference.fromisoformat Reference.mktime
           (JStr Sample.lone_surrogate) JNull empty_world).
  exact H.
Defined.
